(** * nucypher.blockchain.eth.interfaces

    A shallow embedding of [BlockchainInterface] and
    [BlockchainDeployerInterface] (src/nucypher/blockchain/eth/interfaces.py)
    and the properties of provider registration, factory lookup, contract
    resolution through the registry, deployment and signature checking.

    Conventions of the embedding:
    - a Python method that may raise returns a [Result]; a method that also
      mutates [self] is a computation in the state-and-exception monad [Py];
    - [self.w3], the connected web3 client, is passed explicitly as a record
      of the node's answers ([Web3]);
    - the sentinels of [constant_sorrow] ([NO_BLOCKCHAIN_CONNECTION],
      [NO_COMPILATION_PERFORMED], [NO_DEPLOYER_CONFIGURED]) are the [None] of
      an [option] field. *)

From Stdlib Require Import ZArith List String Bool Lia.
From stdpp Require Import gmap strings list.
Import ListNotations.

Local Open Scope string_scope.
Local Open Scope list_scope.

(** ** Exceptions *)

(** The exception classes the module raises, each with its message.
    [InterfaceError] and [UnknownContract] are the two classes nested in
    [BlockchainInterface]; [RuntimeError] and [IndexError] are Python's own;
    [Web3Error] stands for any exception raised inside the web3 client
    (transport failure, timeout of a receipt wait), which the module never
    catches. *)
Inductive Error : Type :=
| InterfaceError (msg : string)
| UnknownContract (msg : string)
| RuntimeError (msg : string)
| IndexError (msg : string)
| Web3Error (msg : string).

Inductive Result (A : Type) : Type :=
| Ok (a : A)
| Raise (e : Error).

Arguments Ok {A} a.
Arguments Raise {A} e.

Definition result_bind {A B} (r : Result A) (k : A -> Result B) : Result B :=
  match r with
  | Ok a => k a
  | Raise e => Raise e
  end.

Declare Scope py_scope.
Delimit Scope py_scope with py.

Notation "x <- c1 ;; c2" := (result_bind c1 (fun x => c2))
  (at level 100, c1 at next level, right associativity) : py_scope.

(** ** The names the specification gives to the failures

    The module raises one class, [InterfaceError], for most failures and
    tells them apart by message.  The specification names each failure; the
    definitions below fix which raised exception each name stands for. *)

Definition ConfigurationError : Error :=
  InterfaceError "No URI or provider instances supplied.".

Definition UnsupportedProviderError (scheme : string) : Error :=
  InterfaceError ("'" +:+ scheme +:+ "' is not a blockchain provider protocol").

Definition UnknownContractError (contract_name : string) : Error :=
  UnknownContract (contract_name +:+ " is not a locally compiled contract.").

Definition CacheEmptyError : Error :=
  InterfaceError
    "The local contract compiler cache is empty because no compilation was performed.".

Definition NotFoundError (name : string) : Error :=
  InterfaceError ("No such contract records with name " +:+ name).

Definition AmbiguousRecordError (name : string) : Error :=
  InterfaceError
    ("Multiple records returned from the registry for non-upgradeable contract "
       +:+ name).

Definition NoDispatcherTargetError (name : string) : Error :=
  InterfaceError ("No dispatcher targets known contract records for " +:+ name).

Definition AmbiguousDispatcherError (name : string) : Error :=
  InterfaceError ("There is more than one dispatcher targeting " +:+ name).

Definition DeployerNotConfiguredError : Error :=
  InterfaceError "No deployer address is configured.".

Definition DeployerAlreadySetError : Error :=
  RuntimeError "BlockchainDeployerInterface already has a deployer address set.".

(** ** Contracts and the registry *)

Definition Address : Type := string.

(** The ABI is a JSON interface description; the module only stores it and
    hands it on, so it is kept as its JSON text. *)
Definition ABI : Type := string.

(** A registry record is the tuple [(name, address, abi)] that the loops of
    [get_contract_by_name] unpack. *)
Definition ContractRecord : Type := (string * Address * ABI)%type.

Definition record_name (r : ContractRecord) : string := fst (fst r).
Definition record_addr (r : ContractRecord) : Address := snd (fst r).
Definition record_abi (r : ContractRecord) : ABI := snd r.

Module EthereumContractRegistry.

(** Modelled from the spec: the class [EthereumContractRegistry] of
    nucypher/blockchain/eth/registry.py is missing.  The specification
    gives the registry as an ordered sequence of [{name, address, abi}],
    queryable by name, and mutable only through the append operation
    [enroll(name, address, abi)]. *)
Definition t : Type := list ContractRecord.

(** Modelled from the spec: [search(contract_name=...)], missing with the
    registry class; the records named [contract_name], in registry order. *)
Definition search (contract_name : string) (registry : t) : list ContractRecord :=
  List.filter (fun r => String.eqb (record_name r) contract_name) registry.

(** Modelled from the spec: [enroll(contract_name, contract_address,
    contract_abi)], missing with the registry class; appends one record. *)
Definition enroll (contract_name : string) (contract_address : Address)
           (contract_abi : ABI) (registry : t) : t :=
  registry ++ [(contract_name, contract_address, contract_abi)].

End EthereumContractRegistry.

(** A contract bound to an address: the object that
    [w3.eth.contract(abi=..., address=...)] returns. *)
Record Contract : Type := mkContract {
  abi : ABI;
  address : Address
}.

(** A contract factory: the class that [w3.eth.contract(abi=..., bytecode=...)]
    returns; calling it with an address gives a [Contract]. *)
Record ContractFactory : Type := mkContractFactory {
  factory_abi : ABI;
  factory_bytecode : string
}.

Definition TxHash : Type := string.

Record Transaction : Type := mkTransaction {
  tx_from : Address;
  tx_gasPrice : Z
}.

Record Receipt : Type := mkReceipt {
  contractAddress : Address
}.

(** Positional constructor arguments of a deployment. *)
Definition ConstructorArgs : Type := list string.

(** ** The web3 client

    What the node answers to each request the module sends through
    [self.w3].  Every request can fail inside the client. *)
Record Web3 : Type := mkWeb3 {
  (** [w3.eth.gasPrice] *)
  eth_gasPrice : Result Z;
  (** [contract.functions.target().call()] on the contract bound at an
      address: the dispatcher's current on-chain target *)
  call_target : Address -> Result Address;
  (** [buildTransaction(tx)] on the factory's constructor call: the encoded payload *)
  buildTransaction : ContractFactory -> ConstructorArgs -> Transaction -> Result string;
  (** [transact(transaction=tx)] on the factory's constructor call *)
  transact : ContractFactory -> ConstructorArgs -> Transaction -> Result TxHash;
  (** [w3.eth.waitForTransactionReceipt(txhash)] *)
  waitForTransactionReceipt : TxHash -> Result Receipt
}.

(** ** The interface instance *)

Inductive Provider : Type :=
| EthereumTesterProvider (gas_limit : Z) (auto_mine_transactions : bool)
| IPCProvider (ipc_path : string) (timeout : option Z)
| WebsocketProvider (endpoint_uri : string)
| HTTPProvider (endpoint_uri : string).

(** One entry of the compiler's output, [{'abi': ..., 'bin': ...}]. *)
Record CompiledInterface : Type := mkCompiledInterface {
  interface_abi : ABI;
  interface_bin : string
}.

(** The fields of [BlockchainInterface] that the methods below read or
    write.  [providers] is [self.__providers]: [None] is the sentinel
    [NO_BLOCKCHAIN_CONNECTION].  [raw_contract_cache] is
    [self.__raw_contract_cache]: [None] is [NO_COMPILATION_PERFORMED],
    [Some m] the dictionary the compiler produced. *)
Record BlockchainInterface : Type := mkBlockchainInterface {
  providers : option (list Provider);
  registry : EthereumContractRegistry.t;
  raw_contract_cache : option (gmap string CompiledInterface)
}.

(** [BlockchainDeployerInterface(BlockchainInterface)]: the base instance
    and [self.__deployer_address], [None] being [NO_DEPLOYER_CONFIGURED]. *)
Record BlockchainDeployerInterface : Type := mkBlockchainDeployerInterface {
  base : BlockchainInterface;
  deployer_address : option Address
}.

(** ** get_contract_by_name *)

(** The inner loop over [target_contract_records]: one pair appended to
    [matching_pairs] for each record whose address is the live target. *)
Definition scan_targets (dispatcher_addr live_target_address : Address)
           (target_contract_records : list ContractRecord)
           (matching_pairs : list (Address * ABI)) : list (Address * ABI) :=
  fold_left
    (fun pairs '(target_name, target_addr, target_abi) =>
       if String.eqb target_addr live_target_address
       then pairs ++ [(dispatcher_addr, target_abi)]
       else pairs)
    target_contract_records matching_pairs.

(** The outer loop over [dispatcher_records]; a failing read of [target()]
    leaves the loop with the exception. *)
Fixpoint scan_dispatchers (w3 : Web3) (dispatcher_records : list ContractRecord)
         (target_contract_records : list ContractRecord)
         (matching_pairs : list (Address * ABI)) : Result (list (Address * ABI)) :=
  match dispatcher_records with
  | [] => Ok matching_pairs
  | (dispatcher_name, dispatcher_addr, dispatcher_abi) :: rest =>
      let dispatcher_contract := mkContract dispatcher_abi dispatcher_addr in
      (live_target_address <- call_target w3 (address dispatcher_contract) ;;
       scan_dispatchers w3 rest target_contract_records
         (scan_targets dispatcher_addr live_target_address
            target_contract_records matching_pairs))%py
  end.

(** [get_contract_by_name(name, upgradeable=False)].  Building a contract
    object with [w3.eth.contract(abi=..., address=...)] only binds the two
    values together. *)
Definition get_contract_by_name (w3 : Web3) (self : BlockchainInterface)
           (name : string) (upgradeable : bool) : Result Contract :=
  let target_contract_records := EthereumContractRegistry.search name (registry self) in
  match target_contract_records with
  | [] => Raise (InterfaceError ("No such contract records with name " +:+ name))
  | _ :: _ =>
      (selected <-
         (if upgradeable then
            let dispatcher_records :=
              EthereumContractRegistry.search "Dispatcher" (registry self) in
            (matching_pairs <-
               scan_dispatchers w3 dispatcher_records target_contract_records [] ;;
             if Nat.eqb (length matching_pairs) 0 then
               Raise (InterfaceError
                        ("No dispatcher targets known contract records for " +:+ name))
             else if Nat.ltb 1 (length matching_pairs) then
               Raise (InterfaceError
                        ("There is more than one dispatcher targeting " +:+ name))
             else
               match matching_pairs with
               | selected_pair :: _ => Ok selected_pair
               | [] => Raise (IndexError "list index out of range")
               end)
          else
            if negb (Nat.eqb (length target_contract_records) 1) then
              Raise (InterfaceError
                       ("Multiple records returned from the registry for non-upgradeable contract "
                          +:+ name))
            else
              match target_contract_records with
              | (selected_contract_name, selected_contract_address,
                 selected_contract_abi) :: _ =>
                  Ok (selected_contract_address, selected_contract_abi)
              | [] => Raise (IndexError "list index out of range")
              end) ;;
       let '(selected_contract_address, selected_contract_abi) := selected in
       Ok (mkContract selected_contract_abi selected_contract_address))%py
  end.

(** ** Methods that mutate [self]

    A method that assigns to fields of [self] and may raise is a state
    transformer that returns its outcome with the instance it leaves behind:
    an exception does not undo assignments made before it. *)

Definition Py (S A : Type) : Type := S -> Result A * S.

Definition py_ret {S A} (a : A) : Py S A := fun self => (Ok a, self).

Definition py_raise {S A} (e : Error) : Py S A := fun self => (Raise e, self).

Definition py_lift {S A} (r : Result A) : Py S A := fun self => (r, self).

Definition py_bind {S A B} (m : Py S A) (k : A -> Py S B) : Py S B :=
  fun self =>
    match m self with
    | (Ok a, self') => k a self'
    | (Raise e, self') => (Raise e, self')
    end.

Definition py_get {S} : Py S S := fun self => (Ok self, self).

Definition py_put {S} (self' : S) : Py S unit := fun _ => (Ok tt, self').

Declare Scope pystate_scope.
Delimit Scope pystate_scope with pystate.

Notation "x <- c1 ;; c2" := (py_bind c1 (fun x => c2))
  (at level 100, c1 at next level, right associativity) : pystate_scope.

Notation "c1 ;;; c2" := (py_bind c1 (fun _ => c2))
  (at level 100, right associativity) : pystate_scope.

(** ** add_provider *)

(** The fields of [urlparse]'s result that [add_provider] reads. *)
Record ParseResult : Type := mkParseResult {
  scheme : string;
  netloc : string;
  path : string
}.

(** Python's truth value of an argument that is a string or [None]. *)
Definition truthy_str (s : option string) : bool :=
  match s with
  | Some s => negb (String.eqb s "")
  | None => false
  end.

(** Python's truth value of an argument that is an object or [None]. *)
Definition truthy {A : Type} (o : option A) : bool :=
  match o with
  | Some _ => true
  | None => false
  end.

Definition set_providers (ps : option (list Provider)) (self : BlockchainInterface)
  : BlockchainInterface :=
  {| providers := ps;
     registry := registry self;
     raw_contract_cache := raw_contract_cache self |}.

Section Providers.

(** [urllib.parse.urlparse], from Python's library. *)
Variable urlparse : string -> ParseResult.

(** [nucypher.blockchain.eth.constants.NUCYPHER_GAS_LIMIT], a constant
    declared outside this module. *)
Variable NUCYPHER_GAS_LIMIT : Z.

(** The chain of tests on [uri_breakdown] inside [add_provider]: the
    provider built for a URI, or the exception raised for it. *)
Definition provider_of_uri (provider_uri : string) (timeout : option Z)
  : Result Provider :=
  let uri_breakdown := urlparse provider_uri in
  if String.eqb (scheme uri_breakdown) "tester" then
    if String.eqb (netloc uri_breakdown) "pyevm" then
      Ok (EthereumTesterProvider NUCYPHER_GAS_LIMIT true)
    else if String.eqb (netloc uri_breakdown) "geth" then
      Ok (IPCProvider "/tmp/geth.ipc" timeout)
    else
      Raise (InterfaceError
               (provider_uri
                  +:+ " is an ambiguous or unsupported blockchain provider URI"))
  else if String.eqb (scheme uri_breakdown) "ipc" then
    Ok (IPCProvider (path uri_breakdown) timeout)
  else if String.eqb (scheme uri_breakdown) "ws" then
    Ok (WebsocketProvider provider_uri)
  else if String.eqb (scheme uri_breakdown) "http"
          || String.eqb (scheme uri_breakdown) "https" then
    Ok (HTTPProvider provider_uri)
  else
    Raise (InterfaceError
             ("'" +:+ scheme uri_breakdown
                  +:+ "' is not a blockchain provider protocol")).

(** [add_provider(provider=None, provider_uri=None, timeout=None)].  The
    lazy creation of the list and the append stand inside the branch
    [if provider_uri and not provider], as in the source. *)
Definition add_provider (provider : option Provider)
           (provider_uri : option string) (timeout : option Z)
  : Py BlockchainInterface unit :=
  if negb (truthy_str provider_uri) && negb (truthy provider) then
    py_raise (InterfaceError "No URI or provider instances supplied.")
  else if truthy_str provider_uri && negb (truthy provider) then
    match provider_uri with
    | Some uri =>
        (built <- py_lift (provider_of_uri uri timeout) ;;
         self <- py_get ;;
         let current :=
           match providers self with
           | None => []
           | Some ps => ps
           end in
         py_put (set_providers (Some (current ++ [built])) self))%pystate
    | None => py_ret tt
    end
  else
    py_ret tt.

End Providers.

(** ** get_contract_factory *)

(** Subscripting the cache: a dictionary without the key raises [KeyError],
    which becomes [UnknownContract]; the sentinel cannot be subscripted
    ([TypeError]), which becomes [InterfaceError].  When the name is found
    the factory is built through [self.w3], the connected client: the
    returned factory is that of an instance that has connected. *)
Definition get_contract_factory (contract_name : string) (self : BlockchainInterface)
  : Result ContractFactory :=
  match raw_contract_cache self with
  | Some cache =>
      match cache !! contract_name with
      | Some interface =>
          Ok (mkContractFactory (interface_abi interface) (interface_bin interface))
      | None =>
          Raise (UnknownContract
                   (contract_name +:+ " is not a locally compiled contract."))
      end
  | None =>
      Raise (InterfaceError
               "The local contract compiler cache is empty because no compilation was performed.")
  end.

(** ** BlockchainDeployerInterface *)

(** [BlockchainDeployerInterface.__init__], the part that sets the deployer. *)
Definition new_deployer_interface (deployer_address : option Address)
           (base : BlockchainInterface) : BlockchainDeployerInterface :=
  mkBlockchainDeployerInterface base deployer_address.

(** The setter of the property [deployer_address]. *)
Definition set_deployer_address (checksum_address : Address)
  : Py BlockchainDeployerInterface unit :=
  (self <- py_get ;;
   match deployer_address self with
   | Some _ =>
       py_raise (RuntimeError
                   ("BlockchainDeployerInterface"
                      +:+ " already has a deployer address set."))
   | None =>
       py_put (mkBlockchainDeployerInterface (base self) (Some checksum_address))
   end)%pystate.

Definition set_registry (r : EthereumContractRegistry.t) (self : BlockchainInterface)
  : BlockchainInterface :=
  {| providers := providers self;
     registry := r;
     raw_contract_cache := raw_contract_cache self |}.

(** [self.registry.enroll(...)] on the deployer instance. *)
Definition registry_enroll (contract_name : string) (contract_address : Address)
           (contract_abi : ABI) : Py BlockchainDeployerInterface unit :=
  fun self =>
    (Ok tt,
     mkBlockchainDeployerInterface
       (set_registry
          (EthereumContractRegistry.enroll contract_name contract_address
             contract_abi (registry (base self)))
          (base self))
       (deployer_address self)).

(** [deploy_contract(contract_name, *args)]; the calls to the logger are
    left out. *)
Definition deploy_contract (w3 : Web3) (contract_name : string)
           (args : ConstructorArgs)
  : Py BlockchainDeployerInterface (Contract * TxHash) :=
  (self <- py_get ;;
   match deployer_address self with
   | None => py_raise (InterfaceError "No deployer address is configured.")
   | Some deployer =>
       (* Build the deployment tx *)
       gas_price <- py_lift (eth_gasPrice w3) ;;
       let deploy_transaction := mkTransaction deployer gas_price in
       contract_factory <- py_lift (get_contract_factory contract_name (base self)) ;;
       deploy_bytecode <-
         py_lift (buildTransaction w3 contract_factory args deploy_transaction) ;;
       (* Transmit the deployment tx *)
       txhash <- py_lift (transact w3 contract_factory args deploy_transaction) ;;
       (* Wait for receipt *)
       receipt <- py_lift (waitForTransactionReceipt w3 txhash) ;;
       let receipt_address := contractAddress receipt in
       (* Instantiate & enroll contract *)
       let contract := mkContract (factory_abi contract_factory) receipt_address in
       registry_enroll contract_name (address contract)
         (factory_abi contract_factory) ;;;
       py_ret (contract, txhash)
   end)%pystate.

(** ** call_backend_verify *)

Definition bytes : Type := list Byte.byte.

(** [==] on byte strings. *)
Definition bytes_eqb (a b : bytes) : bool :=
  if List.list_eq_dec Byte.byte_eq_dec a b then true else false.

(** [eth_keys.datatypes.PublicKey] and [Signature] by their raw bytes; two
    public keys are [==] when their bytes are. *)
Definition PublicKey : Type := bytes.
Definition Signature : Type := bytes.

Section Signing.

(** [Signature.verify_msg_hash] and
    [Signature.recover_public_key_from_msg_hash] of [eth_keys], the
    elliptic-curve primitives outside this module. *)
Variable verify_msg_hash : Signature -> bytes -> PublicKey -> bool.
Variable recover_public_key_from_msg_hash : Signature -> bytes -> PublicKey.

Definition call_backend_verify (pubkey : PublicKey) (signature : Signature)
           (msg_hash : bytes) : bool :=
  let is_valid_sig := verify_msg_hash signature msg_hash pubkey in
  let sig_pubkey := recover_public_key_from_msg_hash signature msg_hash in
  is_valid_sig && bytes_eqb sig_pubkey pubkey.

End Signing.

(** ** Definitions used to state the properties *)

(** The candidate pairs in the words of the specification: for each
    registry record named [Dispatcher], in order, one pair
    [(dispatcher_address, target_abi)] for each registry record named [name]
    whose address is that dispatcher's live target. *)
Definition candidates (live : Address -> Address)
           (registry : EthereumContractRegistry.t) (name : string)
  : list (Address * ABI) :=
  flat_map
    (fun dispatcher : ContractRecord =>
       List.map
         (fun target : ContractRecord => (record_addr dispatcher, record_abi target))
         (List.filter
            (fun target : ContractRecord =>
               String.eqb (record_addr target) (live (record_addr dispatcher)))
            (EthereumContractRegistry.search name registry)))
    (EthereumContractRegistry.search "Dispatcher" registry).

(** Every read of [target()] on a registered dispatcher succeeds and gives
    the address [live] assigns to the dispatcher's address. *)
Definition reads_live_targets (w3 : Web3) (live : Address -> Address)
           (registry : EthereumContractRegistry.t) : Prop :=
  Forall
    (fun dispatcher : ContractRecord =>
       call_target w3 (record_addr dispatcher) = Ok (live (record_addr dispatcher)))
    (EthereumContractRegistry.search "Dispatcher" registry).

(** The provider list as a plain list: the sentinel holds no provider. *)
Definition provider_list (self : BlockchainInterface) : list Provider :=
  match providers self with
  | None => []
  | Some ps => ps
  end.

(** A parser for URIs of the plain shape [scheme://netloc/path], on which
    [urlparse] gives the same three fields; the examples run the methods
    with it. *)
Definition urlparse_plain (uri : string) : ParseResult :=
  match String.index 0 "://" uri with
  | Some i =>
      let rest := String.substring (i + 3) (String.length uri - (i + 3)) uri in
      match String.index 0 "/" rest with
      | Some j =>
          mkParseResult (String.substring 0 i uri) (String.substring 0 j rest)
            (String.substring j (String.length rest - j) rest)
      | None => mkParseResult (String.substring 0 i uri) rest ""
      end
  | None => mkParseResult "" "" uri
  end.

(** A node that answers every request, with a dispatcher at [0xD1] whose
    target is [0xA1]. *)
Definition example_w3 : Web3 :=
  {| eth_gasPrice := Ok 1%Z;
     call_target := fun a => if String.eqb a "0xD1" then Ok "0xA1" else Ok "0xA2";
     buildTransaction := fun f _ _ => Ok (factory_bytecode f);
     transact := fun _ _ _ => Ok "0xtx";
     waitForTransactionReceipt := fun _ => Ok (mkReceipt "0xC0") |}.

Definition example_interface (r : EthereumContractRegistry.t) : BlockchainInterface :=
  {| providers := None; registry := r; raw_contract_cache := None |}.

(** The live targets that [example_w3] reports. *)
Definition example_live (a : Address) : Address :=
  if String.eqb a "0xD1" then "0xA1" else "0xA2".

(** One dispatcher, whose live target is the first of two [MinerEscrow]
    records. *)
Definition registry_one_dispatcher : EthereumContractRegistry.t :=
  [("Dispatcher", "0xD1", "dabi"); ("MinerEscrow", "0xA1", "abi1");
   ("MinerEscrow", "0xA0", "abi0")].

(** One dispatcher, whose live target is enrolled twice under [MinerEscrow]. *)
Definition registry_duplicates : EthereumContractRegistry.t :=
  [("Dispatcher", "0xD1", "dabi"); ("MinerEscrow", "0xA1", "abi1");
   ("MinerEscrow", "0xA1", "abi1")].

(** A dispatcher and its target, and no record named [MinerEscrow]. *)
Definition registry_without_escrow : EthereumContractRegistry.t :=
  [("Dispatcher", "0xD1", "dabi"); ("PolicyManager", "0xA1", "pabi")].

(** A step of [deploy_contract] before the enrollment fails: the deployer
    is not set, the read of the gas price raises, the factory lookup
    raises, the encoding of the constructor call raises, the submission
    raises, or the wait for the receipt raises. *)
Inductive deploy_step_fails (w3 : Web3) (self : BlockchainDeployerInterface)
          (contract_name : string) (args : ConstructorArgs) : Prop :=
| deployer_not_set :
    deployer_address self = None ->
    deploy_step_fails w3 self contract_name args
| gas_price_read_fails (e : Error) :
    eth_gasPrice w3 = Raise e ->
    deploy_step_fails w3 self contract_name args
| factory_missing (e : Error) :
    get_contract_factory contract_name (base self) = Raise e ->
    deploy_step_fails w3 self contract_name args
| encoding_fails (deployer : Address) (gas_price : Z)
                 (contract_factory : ContractFactory) (e : Error) :
    deployer_address self = Some deployer ->
    eth_gasPrice w3 = Ok gas_price ->
    get_contract_factory contract_name (base self) = Ok contract_factory ->
    buildTransaction w3 contract_factory args (mkTransaction deployer gas_price)
    = Raise e ->
    deploy_step_fails w3 self contract_name args
| submission_fails (deployer : Address) (gas_price : Z)
                   (contract_factory : ContractFactory) (e : Error) :
    deployer_address self = Some deployer ->
    eth_gasPrice w3 = Ok gas_price ->
    get_contract_factory contract_name (base self) = Ok contract_factory ->
    transact w3 contract_factory args (mkTransaction deployer gas_price) = Raise e ->
    deploy_step_fails w3 self contract_name args
| receipt_wait_fails (deployer : Address) (gas_price : Z)
                     (contract_factory : ContractFactory) (txhash : TxHash)
                     (e : Error) :
    deployer_address self = Some deployer ->
    eth_gasPrice w3 = Ok gas_price ->
    get_contract_factory contract_name (base self) = Ok contract_factory ->
    transact w3 contract_factory args (mkTransaction deployer gas_price) = Ok txhash ->
    waitForTransactionReceipt w3 txhash = Raise e ->
    deploy_step_fails w3 self contract_name args.

(** A node on which the submitted transaction never confirms. *)
Definition timeout_w3 : Web3 :=
  {| eth_gasPrice := Ok 1%Z;
     call_target := fun _ => Ok "0xA1";
     buildTransaction := fun f _ _ => Ok (factory_bytecode f);
     transact := fun _ _ _ => Ok "0xtx";
     waitForTransactionReceipt := fun _ => Raise (Web3Error "Timeout") |}.

(** A deployer instance with [MinerEscrow] compiled and a deployer set. *)
Definition example_deployer : BlockchainDeployerInterface :=
  {| base :=
       {| providers := Some [HTTPProvider "http://localhost:8545"];
          registry := registry_without_escrow;
          raw_contract_cache :=
            Some {[ "MinerEscrow" := mkCompiledInterface "abi1" "0x6080" ]} |};
     deployer_address := Some "0xDE" |}.

(** ** The rest of the interface *)

(** [_wrap_contract(dispatcher_contract, target_contract)]: the target's
    ABI bound at the dispatcher's address. *)
Definition _wrap_contract (dispatcher_contract target_contract : Contract) : Contract :=
  mkContract (abi target_contract) (address dispatcher_contract).

(** Modelled from the spec: [search(contract_address=...)] of the missing
    registry class; the specification makes the registry queryable by
    address as it is by name: the records enrolled at the address, in
    registry order. *)
Definition search_by_address (contract_address : Address)
           (registry : EthereumContractRegistry.t) : list ContractRecord :=
  List.filter (fun r => String.eqb (record_addr r) contract_address) registry.

(** The body of [get_contract_by_address] around the registry query, whose
    outcome is [searched]: a [RuntimeError] of the query becomes
    [InterfaceError('Corrupted Registrar')], any other exception passes
    through, an empty answer raises, and otherwise the first record is
    returned. *)
Definition get_contract_by_address_from (searched : Result (list ContractRecord))
           (contract_address : Address) : Result ContractRecord :=
  match searched with
  | Raise (RuntimeError _) => Raise (InterfaceError "Corrupted Registrar")
  | Raise e => Raise e
  | Ok contract_records =>
      match contract_records with
      | [] =>
          Raise (InterfaceError
                   ("No such contract with address " +:+ contract_address))
      | first_record :: _ => Ok first_record
      end
  end.

Definition get_contract_by_address (self : BlockchainInterface)
           (contract_address : Address) : Result ContractRecord :=
  get_contract_by_address_from
    (Ok (search_by_address contract_address (registry self))) contract_address.

(** A [for] loop over a list whose body mutates [self] and may raise. *)
Fixpoint py_for {S A : Type} (items : list A) (body : A -> Py S unit) : Py S unit :=
  match items with
  | [] => py_ret tt
  | item :: rest => (body item ;;; py_for rest body)%pystate
  end.

(** [self.provider_uri]: one of the two sentinels
    [NO_BLOCKCHAIN_CONNECTION] and [MANUAL_PROVIDERS_SET], or the URI
    string given to the constructor. *)
Inductive ProviderURI : Type :=
| URI_NO_BLOCKCHAIN_CONNECTION
| MANUAL_PROVIDERS_SET
| URI (uri : string).

(** The whole instance: the fields of [BlockchainInterface] above in [core]
    and the attributes the constructor and [connect] also set.  [w3] is
    [None] for the sentinel [NO_BLOCKCHAIN_CONNECTION] and [Some ps] for
    the client [Web3(providers=ps)]. *)
Record Instance : Type := mkInstance {
  core : BlockchainInterface;
  w3 : option (list Provider);
  provider_uri : ProviderURI;
  network : string;
  timeout : Z;
  autoconnect : bool
}.

Definition set_core (c : BlockchainInterface) (self : Instance) : Instance :=
  {| core := c; w3 := w3 self; provider_uri := provider_uri self;
     network := network self; timeout := timeout self;
     autoconnect := autoconnect self |}.

Definition set_w3 (client : option (list Provider)) (self : Instance) : Instance :=
  {| core := core self; w3 := client; provider_uri := provider_uri self;
     network := network self; timeout := timeout self;
     autoconnect := autoconnect self |}.

Definition set_provider_uri (u : ProviderURI) (self : Instance) : Instance :=
  {| core := core self; w3 := w3 self; provider_uri := u;
     network := network self; timeout := timeout self;
     autoconnect := autoconnect self |}.

(** A method of the fields in [core], run on the whole instance. *)
Definition on_core {A : Type} (m : Py BlockchainInterface A) : Py Instance A :=
  fun self =>
    match m (core self) with
    | (outcome, core') => (outcome, set_core core' self)
    end.

(** Python's truth value of an argument that is a list or [None]. *)
Definition truthy_list {A : Type} (l : option (list A)) : bool :=
  match l with
  | Some (_ :: _) => true
  | Some [] => false
  | None => false
  end.

Section Connection.

(** [str] of the provider list and of [self.provider_uri], as [format]
    puts them into the messages of [connect]. *)
Variable str_providers : list Provider -> string.
Variable str_provider_uri : ProviderURI -> string.

(** [connect()].  The property [is_connected] asks the node each time it
    is read; [isConnected n] is the node's answer to the [n]-th reading
    inside this call. *)
Definition connect (isConnected : nat -> bool) : Py Instance bool :=
  (self <- py_get ;;
   match providers (core self) with
   | None => py_raise (InterfaceError "There are no configured blockchain providers")
   | Some configured =>
       (* Connect *)
       py_put (set_w3 (Some configured) self) ;;;
       (* Check connection *)
       if negb (isConnected 0) then
         py_raise (InterfaceError
                     ("Failed to connect to providers: " +:+ str_providers configured))
       else if isConnected 1 then
         py_ret (isConnected 2)
       else
         py_raise (InterfaceError
                     ("Failed to connect to " +:+ str_provider_uri (provider_uri self)
                        +:+ ". Check your connection."))
   end)%pystate.

Variable urlparse : string -> ParseResult.
Variable NUCYPHER_GAS_LIMIT : Z.

(** [EthereumContractRegistry()], the registry the constructor opens when
    none is passed. *)
Variable default_registry : EthereumContractRegistry.t.

(** The statements of [BlockchainInterface.__init__] after the attributes
    are given their first values.  [compiler] is the compiler by what its
    [compile()] returns. *)
Definition init_body (provider_uri_arg : option string)
           (providers_arg : option (list Provider)) (autoconnect_arg : bool)
           (registry_arg : option EthereumContractRegistry.t)
           (compiler : option (gmap string CompiledInterface))
           (isConnected : nat -> bool) : Py Instance unit :=
  ((if truthy_str provider_uri_arg && truthy_list providers_arg then
      py_raise (InterfaceError
                  "Pass a provider URI string, or a list of provider instances.")
    else if truthy_str provider_uri_arg then
      match provider_uri_arg with
      | Some uri =>
          self <- py_get ;;
          py_put (set_provider_uri (URI uri) self) ;;;
          on_core (add_provider urlparse NUCYPHER_GAS_LIMIT None (Some uri) None)
      | None => py_ret tt
      end
    else if truthy_list providers_arg then
      match providers_arg with
      | Some given =>
          self <- py_get ;;
          py_put (set_provider_uri MANUAL_PROVIDERS_SET self) ;;;
          py_for given
            (fun provider =>
               on_core
                 (add_provider urlparse NUCYPHER_GAS_LIMIT (Some provider) None None))
      | None => py_ret tt
      end
    else
      py_ret tt) ;;;
   (* Setup the registry and base contract factory cache *)
   self <- py_get ;;
   py_put
     (set_core
        {| providers := providers (core self);
           registry :=
             match registry_arg with
             | Some given => given
             | None => default_registry
             end;
           raw_contract_cache := compiler |}
        self) ;;;
   (* Auto-connect *)
   if autoconnect_arg then (connect isConnected ;;; py_ret tt) else py_ret tt)%pystate.

(** [BlockchainInterface(network_name, provider_uri, providers,
    autoconnect, timeout, registry, compiler)]: the instance when the
    constructor returns, or the exception it raises. *)
Definition init (network_name : option string) (provider_uri_arg : option string)
           (providers_arg : option (list Provider)) (autoconnect_arg : bool)
           (timeout_arg : option Z)
           (registry_arg : option EthereumContractRegistry.t)
           (compiler : option (gmap string CompiledInterface))
           (isConnected : nat -> bool) : Result Instance :=
  let fresh :=
    {| core :=
         {| providers := if truthy_list providers_arg then providers_arg else None;
            registry := default_registry;
            raw_contract_cache := None |};
       w3 := None;
       provider_uri := URI_NO_BLOCKCHAIN_CONNECTION;
       network :=
         match network_name with
         | Some given => given
         | None => "tester"
         end;
       timeout :=
         match timeout_arg with
         | Some given => given
         | None => 10%Z
         end;
       autoconnect := autoconnect_arg |} in
  match init_body provider_uri_arg providers_arg autoconnect_arg registry_arg
          compiler isConnected fresh with
  | (Ok _, self) => Ok self
  | (Raise e, _) => Raise e
  end.

End Connection.

(** [unlock_account(address, password, duration)]; [unlocked] is what the
    node's [personal.unlockAccount] answers for these arguments. *)
Definition unlock_account (self : Instance) (unlocked : Result bool) : Result bool :=
  match provider_uri self with
  | URI uri => if String.eqb uri "tester://pyevm" then Ok true else unlocked
  | _ => unlocked
  end.

(** The provider list, when it exists, holds a provider. *)
Definition providers_well_formed (self : BlockchainInterface) : Prop :=
  providers self <> Some [].

(** Renderings used when the examples run [connect]. *)
Definition example_str_providers (ps : list Provider) : string := "[...]".

Definition example_str_provider_uri (u : ProviderURI) : string :=
  match u with
  | URI uri => uri
  | MANUAL_PROVIDERS_SET => "MANUAL_PROVIDERS_SET"
  | URI_NO_BLOCKCHAIN_CONNECTION => "NO_BLOCKCHAIN_CONNECTION"
  end.

(** A node on which every read of [target()] fails. *)
Definition unreachable_w3 : Web3 :=
  {| eth_gasPrice := Raise (Web3Error "ConnectionError");
     call_target := fun _ => Raise (Web3Error "ConnectionError");
     buildTransaction := fun _ _ _ => Raise (Web3Error "ConnectionError");
     transact := fun _ _ _ => Raise (Web3Error "ConnectionError");
     waitForTransactionReceipt := fun _ => Raise (Web3Error "ConnectionError") |}.

(** A node that confirms every deployment, at an address made from the
    deployed bytecode, and on which the dispatcher deployed from bytecode
    [0x6081] targets the contract deployed from bytecode [0x6080]. *)
Definition deploying_w3 : Web3 :=
  {| eth_gasPrice := Ok 1%Z;
     call_target :=
       fun a => if String.eqb a "0xC:0x6081" then Ok "0xC:0x6080" else Ok "0x0";
     buildTransaction := fun f _ _ => Ok (factory_bytecode f);
     transact := fun f _ _ => Ok ("0xC:" +:+ factory_bytecode f);
     waitForTransactionReceipt := fun txhash => Ok (mkReceipt txhash) |}.

(** A deployer instance with an empty registry, [MinerEscrow] and
    [Dispatcher] compiled, and a deployer set. *)
Definition fresh_deployer : BlockchainDeployerInterface :=
  {| base :=
       {| providers := Some [HTTPProvider "http://localhost:8545"];
          registry := [];
          raw_contract_cache :=
            Some (<[ "Dispatcher" := mkCompiledInterface "dabi" "0x6081" ]>
                    {[ "MinerEscrow" := mkCompiledInterface "abi1" "0x6080" ]}) |};
     deployer_address := Some "0xDE" |}.

(** Two versions of [MinerEscrow] at different addresses and one
    dispatcher, whose live target on [example_w3] is the first version. *)
Definition registry_two_versions : EthereumContractRegistry.t :=
  [("MinerEscrow", "0xA1", "abi1"); ("Dispatcher", "0xD1", "dabi");
   ("MinerEscrow", "0xA0", "abi0")].

(** The instance the constructor has built when it reaches the
    auto-connect step, from its arguments and the provider list and
    [provider_uri] its first steps settled. *)
Definition constructed (default_registry : EthereumContractRegistry.t)
           (network_name : option string) (autoconnect_arg : bool)
           (timeout_arg : option Z)
           (registry_arg : option EthereumContractRegistry.t)
           (compiler : option (gmap string CompiledInterface))
           (configured : option (list Provider)) (uri_attr : ProviderURI) : Instance :=
  {| core :=
       {| providers := configured;
          registry :=
            match registry_arg with
            | Some given => given
            | None => default_registry
            end;
          raw_contract_cache := compiler |};
     w3 := None;
     provider_uri := uri_attr;
     network :=
       match network_name with
       | Some given => given
       | None => "tester"
       end;
     timeout :=
       match timeout_arg with
       | Some given => given
       | None => 10%Z
       end;
     autoconnect := autoconnect_arg |}.

(** An instance with one HTTP provider, not yet connected. *)
Definition example_instance : Instance :=
  {| core :=
       {| providers := Some [HTTPProvider "http://localhost:8545"];
          registry := [];
          raw_contract_cache := None |};
     w3 := None;
     provider_uri := URI "http://localhost:8545";
     network := "tester";
     timeout := 10%Z;
     autoconnect := false |}.

(** A node that answers every liveness probe, and one that answers none. *)
Definition node_up (n : nat) : bool := true.
Definition node_down (n : nat) : bool := false.

(** The last step of the constructor on the instance built so far: the
    call of [connect] when [autoconnect] is set, whose returned value is
    dropped and whose exception leaves the constructor. *)
Definition after_autoconnect (str_providers : list Provider -> string)
           (str_provider_uri : ProviderURI -> string) (isConnected : nat -> bool)
           (autoconnect_arg : bool) (self : Instance) : Result Instance :=
  if autoconnect_arg then
    match connect str_providers str_provider_uri isConnected self with
    | (Ok _, connected) => Ok connected
    | (Raise e, _) => Raise e
    end
  else Ok self.

(** * Properties *)

Example urlparse_plain_http :
  urlparse_plain "http://localhost:8545/rpc"
  = mkParseResult "http" "localhost:8545" "/rpc".
Proof. reflexivity. Qed.

Example resolve_through_dispatcher :
  get_contract_by_name example_w3
    (example_interface
       [("Dispatcher", "0xD1", "dabi"); ("MinerEscrow", "0xA1", "abi1");
        ("MinerEscrow", "0xA0", "abi0")])
    "MinerEscrow" true
  = Ok (mkContract "abi1" "0xD1").
Proof. reflexivity. Qed.

(** ** Resolution by name *)

Section Resolution.

Variable w3 : Web3.

Lemma scan_targets_spec (dispatcher_addr live : Address)
      (targets : list ContractRecord) (pairs : list (Address * ABI)) :
  scan_targets dispatcher_addr live targets pairs
  = pairs
      ++ List.map (fun target : ContractRecord => (dispatcher_addr, record_abi target))
           (List.filter
              (fun target : ContractRecord => String.eqb (record_addr target) live)
              targets).
Proof.
  unfold scan_targets.
  revert pairs.
  induction targets as [| [[target_name target_addr] target_abi] targets IH];
    intros pairs; simpl.
  - now rewrite app_nil_r.
  - rewrite IH. unfold record_addr at 2. simpl.
    destruct (String.eqb target_addr live); simpl.
    + now rewrite <- app_assoc.
    + reflexivity.
Qed.

Lemma scan_dispatchers_spec (live : Address -> Address)
      (dispatchers targets : list ContractRecord) (pairs : list (Address * ABI)) :
  Forall
    (fun dispatcher : ContractRecord =>
       call_target w3 (record_addr dispatcher) = Ok (live (record_addr dispatcher)))
    dispatchers ->
  scan_dispatchers w3 dispatchers targets pairs
  = Ok (pairs
          ++ flat_map
               (fun dispatcher : ContractRecord =>
                  List.map
                    (fun target : ContractRecord =>
                       (record_addr dispatcher, record_abi target))
                    (List.filter
                       (fun target : ContractRecord =>
                          String.eqb (record_addr target)
                            (live (record_addr dispatcher)))
                       targets))
               dispatchers).
Proof.
  intros Hreads. revert pairs.
  induction Hreads as [| [[dname daddr] dabi] dispatchers Hread _ IH];
    intros pairs; simpl.
  - now rewrite app_nil_r.
  - unfold record_addr in Hread. simpl in Hread. rewrite Hread. simpl.
    rewrite IH, scan_targets_spec, <- app_assoc. reflexivity.
Qed.

(** The outcome of the upgradeable path once the guard on the records
    named [name] has passed, by the number of candidate pairs. *)
Lemma upgradeable_outcome (self : BlockchainInterface) (name : string)
      (live : Address -> Address) :
  EthereumContractRegistry.search name (registry self) <> [] ->
  reads_live_targets w3 live (registry self) ->
  get_contract_by_name w3 self name true
  = match candidates live (registry self) name with
    | [] => Raise (NoDispatcherTargetError name)
    | [(dispatcher_address, target_abi)] =>
        Ok (mkContract target_abi dispatcher_address)
    | _ :: _ :: _ => Raise (AmbiguousDispatcherError name)
    end.
Proof.
  intros Hrecords Hreads.
  unfold get_contract_by_name, reads_live_targets in *.
  destruct (EthereumContractRegistry.search name (registry self))
    as [| first others] eqn:Hsearch; [congruence |].
  rewrite (scan_dispatchers_spec live _ _ [] Hreads). simpl.
  unfold candidates. rewrite Hsearch.
  destruct (flat_map _ _) as [| [addr1 abi1] [| second rest]]; reflexivity.
Qed.

(** The guard at the head of [get_contract_by_name] fires in both modes. *)
Lemma no_records_raises (self : BlockchainInterface) (name : string)
      (upgradeable : bool) :
  EthereumContractRegistry.search name (registry self) = [] ->
  get_contract_by_name w3 self name upgradeable = Raise (NotFoundError name).
Proof.
  intros Hsearch. unfold get_contract_by_name. now rewrite Hsearch.
Qed.

End Resolution.

(** C1, as stated, fails: on a registry with no record named [name] the
    candidate set is empty, yet the call does not fail with
    NoDispatcherTargetError; the guard on the name's records has already
    raised NotFoundError, before any dispatcher is scanned. *)
Lemma upgradeable_zero_candidates_not_always_no_target :
  reads_live_targets example_w3 example_live []
  /\ candidates example_live [] "MinerEscrow" = []
  /\ get_contract_by_name example_w3 (example_interface []) "MinerEscrow" true
     = Raise (NotFoundError "MinerEscrow")
  /\ NotFoundError "MinerEscrow" <> NoDispatcherTargetError "MinerEscrow".
Proof.
  repeat split; try reflexivity.
  - constructor.
  - discriminate.
Qed.

(** C1 (amended): for every registry state that holds at least one record
    named [name], and every node whose [target()] reads succeed on the
    registered dispatchers, resolving [name] with [upgradeable = true]
    collects one candidate pair [(dispatcher_address, target_abi)] for each
    record named [Dispatcher] and each record named [name] whose address is
    that dispatcher's live target; it returns the single candidate's
    dispatcher address with the target's ABI when there is exactly one
    candidate, fails with NoDispatcherTargetError when there is none, and
    with AmbiguousDispatcherError when there is more than one. *)
Theorem resolve_upgradeable_by_candidates
        (w3 : Web3) (self : BlockchainInterface) (name : string)
        (live : Address -> Address) :
  EthereumContractRegistry.search name (registry self) <> [] ->
  reads_live_targets w3 live (registry self) ->
  get_contract_by_name w3 self name true
  = match candidates live (registry self) name with
    | [] => Raise (NoDispatcherTargetError name)
    | [(dispatcher_address, target_abi)] =>
        Ok (mkContract target_abi dispatcher_address)
    | _ :: _ :: _ => Raise (AmbiguousDispatcherError name)
    end.
Proof. apply upgradeable_outcome. Qed.

Lemma resolve_upgradeable_by_candidates_witness :
  EthereumContractRegistry.search "MinerEscrow" registry_one_dispatcher <> []
  /\ reads_live_targets example_w3 example_live registry_one_dispatcher
  /\ get_contract_by_name example_w3 (example_interface registry_one_dispatcher)
       "MinerEscrow" true
     = Ok (mkContract "abi1" "0xD1").
Proof.
  assert (Hrecords :
            EthereumContractRegistry.search "MinerEscrow"
              (registry (example_interface registry_one_dispatcher)) <> [])
    by (simpl; discriminate).
  assert (Hreads :
            reads_live_targets example_w3 example_live
              (registry (example_interface registry_one_dispatcher)))
    by (repeat constructor).
  split; [exact Hrecords | split; [exact Hreads |]].
  exact (resolve_upgradeable_by_candidates example_w3
           (example_interface registry_one_dispatcher) "MinerEscrow"
           example_live Hrecords Hreads).
Defined.


(** C4, as stated, fails: with a dispatcher registered and no record named
    [MinerEscrow], upgradeable resolution of [MinerEscrow] raises the error
    of the guard on the name's records, not NoDispatcherTargetError. *)
Lemma upgradeable_without_records_not_no_target :
  EthereumContractRegistry.search "MinerEscrow" registry_without_escrow = []
  /\ EthereumContractRegistry.search "Dispatcher" registry_without_escrow
     = [("Dispatcher", "0xD1", "dabi")]
  /\ get_contract_by_name example_w3 (example_interface registry_without_escrow)
       "MinerEscrow" true
     <> Raise (NoDispatcherTargetError "MinerEscrow").
Proof.
  repeat split; try reflexivity.
  discriminate.
Qed.

(** C4 (amended): for every registry state in which no record matches
    [name], whatever dispatcher records exist, the candidate set is empty
    and resolving [name] with [upgradeable = true] fails with NotFoundError,
    raised by the guard on the name's records before the dispatcher scan. *)
Theorem upgradeable_without_records_not_found
        (w3 : Web3) (self : BlockchainInterface) (name : string)
        (live : Address -> Address) :
  EthereumContractRegistry.search name (registry self) = [] ->
  candidates live (registry self) name = []
  /\ get_contract_by_name w3 self name true = Raise (NotFoundError name).
Proof.
  intros Hsearch. split.
  - unfold candidates. rewrite Hsearch. simpl.
    induction (EthereumContractRegistry.search "Dispatcher" (registry self));
      [reflexivity | assumption].
  - now apply no_records_raises.
Qed.

Lemma upgradeable_without_records_not_found_witness :
  EthereumContractRegistry.search "MinerEscrow" registry_without_escrow = []
  /\ candidates example_live registry_without_escrow "MinerEscrow" = []
  /\ get_contract_by_name example_w3 (example_interface registry_without_escrow)
       "MinerEscrow" true
     = Raise (NotFoundError "MinerEscrow").
Proof.
  split; [reflexivity |].
  exact (upgradeable_without_records_not_found example_w3
           (example_interface registry_without_escrow) "MinerEscrow"
           example_live eq_refl).
Defined.

(** C10: for every registry state with a single dispatcher record and two
    or more records named [name] whose address is that dispatcher's live
    target, upgradeable resolution fails with AmbiguousDispatcherError: the
    candidates are one pair per matching record, all with the one
    dispatcher's address, and it is the pairs that are counted. *)
Theorem duplicate_targets_are_ambiguous
        (w3 : Web3) (self : BlockchainInterface) (name : string)
        (dispatcher : ContractRecord) (live_target : Address) :
  EthereumContractRegistry.search "Dispatcher" (registry self) = [dispatcher] ->
  call_target w3 (record_addr dispatcher) = Ok live_target ->
  2 <= length
         (List.filter
            (fun target : ContractRecord => String.eqb (record_addr target) live_target)
            (EthereumContractRegistry.search name (registry self))) ->
  candidates (fun _ => live_target) (registry self) name
  = List.map (fun target : ContractRecord => (record_addr dispatcher, record_abi target))
      (List.filter
         (fun target : ContractRecord => String.eqb (record_addr target) live_target)
         (EthereumContractRegistry.search name (registry self)))
  /\ get_contract_by_name w3 self name true = Raise (AmbiguousDispatcherError name).
Proof.
  intros Hdispatchers Hread Hmatching.
  assert (Hcandidates :
            candidates (fun _ => live_target) (registry self) name
            = List.map
                (fun target : ContractRecord =>
                   (record_addr dispatcher, record_abi target))
                (List.filter
                   (fun target : ContractRecord =>
                      String.eqb (record_addr target) live_target)
                   (EthereumContractRegistry.search name (registry self)))).
  { unfold candidates. rewrite Hdispatchers. simpl. apply app_nil_r. }
  split; [exact Hcandidates |].
  rewrite (upgradeable_outcome w3 self name (fun _ => live_target)).
  - rewrite Hcandidates.
    destruct (List.filter _ _) as [| first [| second others]];
      simpl in Hmatching; try lia.
    simpl. now destruct first as [[? ?] ?].
  - intros Hnone. rewrite Hnone in Hmatching. simpl in Hmatching. lia.
  - unfold reads_live_targets. rewrite Hdispatchers.
    constructor; [exact Hread | constructor].
Qed.

Lemma duplicate_targets_are_ambiguous_witness :
  get_contract_by_name example_w3 (example_interface registry_duplicates)
    "MinerEscrow" true
  = Raise (AmbiguousDispatcherError "MinerEscrow").
Proof.
  refine (proj2
            (duplicate_targets_are_ambiguous example_w3
               (example_interface registry_duplicates) "MinerEscrow"
               ("Dispatcher", "0xD1", "dabi") "0xA1" eq_refl eq_refl _)).
  simpl. lia.
Defined.

(** ** Deployment *)

(** [deploy_contract] step by step: each failing step leaves with its
    exception and the instance as it was; only the run in which every step
    succeeds reaches the enrollment. *)
Lemma deploy_contract_outcome (w3 : Web3) (contract_name : string)
      (args : ConstructorArgs) (self : BlockchainDeployerInterface) :
  deploy_contract w3 contract_name args self
  = match deployer_address self with
    | None => (Raise DeployerNotConfiguredError, self)
    | Some deployer =>
        match eth_gasPrice w3 with
        | Raise e => (Raise e, self)
        | Ok gas_price =>
            match get_contract_factory contract_name (base self) with
            | Raise e => (Raise e, self)
            | Ok contract_factory =>
                let deploy_transaction := mkTransaction deployer gas_price in
                match buildTransaction w3 contract_factory args deploy_transaction with
                | Raise e => (Raise e, self)
                | Ok _ =>
                    match transact w3 contract_factory args deploy_transaction with
                    | Raise e => (Raise e, self)
                    | Ok txhash =>
                        match waitForTransactionReceipt w3 txhash with
                        | Raise e => (Raise e, self)
                        | Ok receipt =>
                            (Ok (mkContract (factory_abi contract_factory)
                                   (contractAddress receipt), txhash),
                             mkBlockchainDeployerInterface
                               (set_registry
                                  (EthereumContractRegistry.enroll contract_name
                                     (contractAddress receipt)
                                     (factory_abi contract_factory)
                                     (registry (base self)))
                                  (base self))
                               (deployer_address self))
                        end
                    end
                end
            end
        end
    end.
Proof.
  unfold deploy_contract, py_bind, py_get, py_lift, py_raise, py_ret,
    registry_enroll.
  destruct (deployer_address self) as [deployer |] eqn:Hdeployer; [| reflexivity].
  destruct (eth_gasPrice w3) as [gas_price | e]; [| reflexivity].
  destruct (get_contract_factory contract_name (base self))
    as [contract_factory | e]; [| reflexivity].
  cbv zeta.
  destruct (buildTransaction w3 contract_factory args _) as [data | e];
    [| reflexivity].
  destruct (transact w3 contract_factory args _) as [txhash | e]; [| reflexivity].
  destruct (waitForTransactionReceipt w3 txhash) as [receipt | e];
    [| reflexivity].
  simpl. now rewrite Hdeployer.
Qed.

(** C3: the enrollment happens only after a receipt for the constructor
    transaction has been obtained: a deployment that changes the registry
    has gone through every step (deployer set, gas price read, factory
    found, constructor call encoded, transaction submitted, receipt
    received), returns, and the change is the one record enrolled from the
    receipt; a deployment that raises, at whatever step, leaves the
    instance, hence the registry, exactly as it was; and if a step before
    the enrollment fails (no deployer set, gas price read failing, no
    factory, encoding failing, submission failing, receipt wait failing)
    the call does raise, and the registry gains no record of that name. *)
Theorem enroll_only_after_receipt
        (w3 : Web3) (contract_name : string) (args : ConstructorArgs)
        (self self' : BlockchainDeployerInterface)
        (outcome : Result (Contract * TxHash)) :
  deploy_contract w3 contract_name args self = (outcome, self') ->
  (registry (base self') <> registry (base self) ->
   exists deployer gas_price contract_factory data txhash receipt,
     deployer_address self = Some deployer
     /\ eth_gasPrice w3 = Ok gas_price
     /\ get_contract_factory contract_name (base self) = Ok contract_factory
     /\ buildTransaction w3 contract_factory args (mkTransaction deployer gas_price)
        = Ok data
     /\ transact w3 contract_factory args (mkTransaction deployer gas_price)
        = Ok txhash
     /\ waitForTransactionReceipt w3 txhash = Ok receipt
     /\ outcome
        = Ok (mkContract (factory_abi contract_factory) (contractAddress receipt),
              txhash)
     /\ registry (base self')
        = EthereumContractRegistry.enroll contract_name (contractAddress receipt)
            (factory_abi contract_factory) (registry (base self)))
  /\ (forall e, outcome = Raise e -> self' = self)
  /\ (deploy_step_fails w3 self contract_name args ->
      (exists e, outcome = Raise e)
      /\ self' = self
      /\ EthereumContractRegistry.search contract_name (registry (base self'))
         = EthereumContractRegistry.search contract_name (registry (base self))).
Proof.
  rewrite deploy_contract_outcome. intros Hrun.
  assert (Hraised : forall e, outcome = Raise e -> self' = self).
  { intros e0 Houtcome. subst outcome.
    destruct (deployer_address self) as [deployer |]; [| now inversion Hrun].
    destruct (eth_gasPrice w3) as [gas_price | e1]; [| now inversion Hrun].
    destruct (get_contract_factory contract_name (base self))
      as [contract_factory | e2]; [| now inversion Hrun].
    cbv zeta in Hrun.
    destruct (buildTransaction w3 contract_factory args _) as [data | e3];
      [| now inversion Hrun].
    destruct (transact w3 contract_factory args _) as [txhash | e4];
      [| now inversion Hrun].
    destruct (waitForTransactionReceipt w3 txhash) as [receipt | e5];
      now inversion Hrun. }
  split; [| split; [exact Hraised |]].
  - intros Hchanged.
    destruct (deployer_address self) as [deployer |] eqn:Hdeployer;
      [| inversion Hrun; subst; congruence].
    destruct (eth_gasPrice w3) as [gas_price | e] eqn:Hgas;
      [| inversion Hrun; subst; congruence].
    destruct (get_contract_factory contract_name (base self))
      as [contract_factory | e] eqn:Hfactory;
      [| inversion Hrun; subst; congruence].
    cbv zeta in Hrun.
    destruct (buildTransaction w3 contract_factory args _) as [data | e] eqn:Hdata;
      [| inversion Hrun; subst; congruence].
    destruct (transact w3 contract_factory args _) as [txhash | e] eqn:Htransact;
      [| inversion Hrun; subst; congruence].
    destruct (waitForTransactionReceipt w3 txhash) as [receipt | e] eqn:Hreceipt;
      [| inversion Hrun; subst; congruence].
    exists deployer, gas_price, contract_factory, data, txhash, receipt.
    inversion Hrun; subst. simpl. auto 12.
  - intros Hfails.
    assert (Hraise : exists e, outcome = Raise e).
    { destruct Hfails as [Hunset | e Hgasfail | e Hmissing
                         | deployer gas_price contract_factory e
                             Hdeployer Hgas Hfactory Hencode
                         | deployer gas_price contract_factory e
                             Hdeployer Hgas Hfactory Hsubmit
                         | deployer gas_price contract_factory txhash e
                             Hdeployer Hgas Hfactory Hsubmit Hwait].
      - rewrite Hunset in Hrun. inversion Hrun; subst. eauto.
      - rewrite Hgasfail in Hrun.
        destruct (deployer_address self); inversion Hrun; subst; eauto.
      - rewrite Hmissing in Hrun.
        destruct (deployer_address self); [| inversion Hrun; subst; eauto].
        destruct (eth_gasPrice w3); inversion Hrun; subst; eauto.
      - rewrite Hdeployer, Hgas, Hfactory in Hrun. cbv zeta in Hrun.
        rewrite Hencode in Hrun. inversion Hrun; subst; eauto.
      - rewrite Hdeployer, Hgas, Hfactory in Hrun. cbv zeta in Hrun.
        rewrite Hsubmit in Hrun.
        destruct (buildTransaction w3 contract_factory args _);
          inversion Hrun; subst; eauto.
      - rewrite Hdeployer, Hgas, Hfactory in Hrun. cbv zeta in Hrun.
        rewrite Hsubmit, Hwait in Hrun.
        destruct (buildTransaction w3 contract_factory args _);
          inversion Hrun; subst; eauto. }
    destruct Hraise as [e Houtcome].
    rewrite (Hraised e Houtcome). eauto.
Qed.

Lemma enroll_only_after_receipt_witness :
  deploy_step_fails timeout_w3 example_deployer "MinerEscrow" []
  /\ (exists e,
        fst (deploy_contract timeout_w3 "MinerEscrow" [] example_deployer) = Raise e)
  /\ registry
       (base (snd (deploy_contract timeout_w3 "MinerEscrow" [] example_deployer)))
     = registry_without_escrow.
Proof.
  assert (Hfails : deploy_step_fails timeout_w3 example_deployer "MinerEscrow" []).
  { apply (receipt_wait_fails timeout_w3 example_deployer "MinerEscrow" []
             "0xDE" 1%Z (mkContractFactory "abi1" "0x6080") "0xtx"
             (Web3Error "Timeout"));
      vm_compute; reflexivity. }
  split; [exact Hfails |].
  destruct (enroll_only_after_receipt timeout_w3 "MinerEscrow" []
              example_deployer
              (snd (deploy_contract timeout_w3 "MinerEscrow" [] example_deployer))
              (fst (deploy_contract timeout_w3 "MinerEscrow" [] example_deployer))
              (surjective_pairing _))
    as (_ & _ & Hunchanged).
  destruct (Hunchanged Hfails) as (Hraises & Hsame & _).
  split; [exact Hraises |].
  rewrite Hsame. reflexivity.
Defined.

(** ** Providers *)

Section ProviderProperties.

Variable urlparse : string -> ParseResult.
Variable NUCYPHER_GAS_LIMIT : Z.

(** The URI path of [add_provider]: the provider built for the URI is
    appended to the list, which is created when the sentinel is still in
    place and otherwise kept, with its providers in order. *)
Lemma add_provider_uri_appends (self : BlockchainInterface) (uri : string)
      (timeout : option Z) (built : Provider) :
  uri <> "" ->
  provider_of_uri urlparse NUCYPHER_GAS_LIMIT uri timeout = Ok built ->
  add_provider urlparse NUCYPHER_GAS_LIMIT None (Some uri) timeout self
  = (Ok tt, set_providers (Some (provider_list self ++ [built])) self).
Proof.
  intros Hpresent Hbuilt.
  unfold add_provider, truthy_str, truthy.
  apply String.eqb_neq in Hpresent. rewrite Hpresent. simpl.
  unfold py_bind, py_lift. rewrite Hbuilt. reflexivity.
Qed.

(** A URI whose scheme is none of the five is refused by the chain of
    tests, with the message that names the scheme. *)
Lemma provider_of_uri_unsupported (uri : string) (timeout : option Z) :
  ~ In (scheme (urlparse uri)) ["tester"; "ipc"; "ws"; "http"; "https"] ->
  provider_of_uri urlparse NUCYPHER_GAS_LIMIT uri timeout
  = Raise (UnsupportedProviderError (scheme (urlparse uri))).
Proof.
  intros Hscheme. unfold provider_of_uri. cbv zeta.
  destruct (String.eqb_spec (scheme (urlparse uri)) "tester") as [Heq | _];
    [exfalso; apply Hscheme; rewrite Heq; simpl; auto |].
  destruct (String.eqb_spec (scheme (urlparse uri)) "ipc") as [Heq | _];
    [exfalso; apply Hscheme; rewrite Heq; simpl; auto |].
  destruct (String.eqb_spec (scheme (urlparse uri)) "ws") as [Heq | _];
    [exfalso; apply Hscheme; rewrite Heq; simpl; auto |].
  destruct (String.eqb_spec (scheme (urlparse uri)) "http") as [Heq | _];
    [exfalso; apply Hscheme; rewrite Heq; simpl; auto |].
  destruct (String.eqb_spec (scheme (urlparse uri)) "https") as [Heq | _];
    [exfalso; apply Hscheme; rewrite Heq; simpl; auto 6 |].
  reflexivity.
Qed.

End ProviderProperties.

(** C5 (the code departs from the claim): a call of [add_provider] with an
    already-built provider instance returns without raising and leaves the
    instance, and so its provider list, exactly as it was; the instance is
    not appended, because the append stands inside the branch taken only
    when a URI and no instance is given. *)
Theorem add_provider_instance_is_not_appended
        (urlparse : string -> ParseResult) (NUCYPHER_GAS_LIMIT : Z)
        (self : BlockchainInterface) (instance : Provider)
        (provider_uri : option string) (timeout : option Z) :
  add_provider urlparse NUCYPHER_GAS_LIMIT (Some instance) provider_uri timeout self
  = (Ok tt, self)
  /\ providers
       (snd (add_provider urlparse NUCYPHER_GAS_LIMIT (Some instance) provider_uri
               timeout self))
     = providers self.
Proof.
  assert (Hrun :
            add_provider urlparse NUCYPHER_GAS_LIMIT (Some instance) provider_uri
              timeout self
            = (Ok tt, self)).
  { unfold add_provider, truthy. simpl. rewrite !andb_false_r. reflexivity. }
  split; [exact Hrun |].
  now rewrite Hrun.
Qed.

(** On an instance without providers, adding an HTTP provider instance
    leaves the sentinel in place, while adding the same endpoint by its URI
    creates the list with the provider in it. *)
Example add_provider_instance_on_fresh_interface :
  providers
    (snd (add_provider urlparse_plain 8000000
            (Some (HTTPProvider "http://localhost:8545")) None None
            (example_interface [])))
  = None
  /\ providers
       (snd (add_provider urlparse_plain 8000000 None
               (Some "http://localhost:8545") None (example_interface [])))
     = Some [HTTPProvider "http://localhost:8545"].
Proof. split; reflexivity. Qed.

(** C9: for every URI whose scheme is none of tester, ipc, ws, http and
    https, no provider is produced: the chain of tests raises
    UnsupportedProviderError, and [add_provider] called with the URI alone
    raises and leaves the instance, hence the provider list, unchanged; the
    exception is UnsupportedProviderError whenever the URI is not the empty
    string, for which the missing-argument check answers first. *)
Theorem unsupported_scheme_adds_no_provider
        (urlparse : string -> ParseResult) (NUCYPHER_GAS_LIMIT : Z)
        (self : BlockchainInterface) (uri : string) (timeout : option Z) :
  ~ In (scheme (urlparse uri)) ["tester"; "ipc"; "ws"; "http"; "https"] ->
  provider_of_uri urlparse NUCYPHER_GAS_LIMIT uri timeout
  = Raise (UnsupportedProviderError (scheme (urlparse uri)))
  /\ (exists e,
         add_provider urlparse NUCYPHER_GAS_LIMIT None (Some uri) timeout self
         = (Raise e, self))
  /\ (uri <> "" ->
      add_provider urlparse NUCYPHER_GAS_LIMIT None (Some uri) timeout self
      = (Raise (UnsupportedProviderError (scheme (urlparse uri))), self)).
Proof.
  intros Hscheme.
  pose proof (provider_of_uri_unsupported urlparse NUCYPHER_GAS_LIMIT uri timeout
                Hscheme) as Hrefused.
  assert (Hpresent :
            uri <> "" ->
            add_provider urlparse NUCYPHER_GAS_LIMIT None (Some uri) timeout self
            = (Raise (UnsupportedProviderError (scheme (urlparse uri))), self)).
  { intros Hne. unfold add_provider, truthy_str, truthy.
    apply String.eqb_neq in Hne. rewrite Hne. simpl.
    unfold py_bind, py_lift. rewrite Hrefused. reflexivity. }
  split; [exact Hrefused | split; [| exact Hpresent]].
  destruct (String.eqb_spec uri "") as [Hempty | Hne].
  - subst uri. eexists. reflexivity.
  - eexists. apply Hpresent, Hne.
Qed.

Lemma unsupported_scheme_adds_no_provider_witness :
  scheme (urlparse_plain "ftp://example.org/chain") = "ftp"
  /\ add_provider urlparse_plain 8000000 None (Some "ftp://example.org/chain") None
       (example_interface [])
     = (Raise (UnsupportedProviderError "ftp"), example_interface []).
Proof.
  split; [reflexivity |].
  refine (proj2 (proj2
            (unsupported_scheme_adds_no_provider urlparse_plain 8000000
               (example_interface []) "ftp://example.org/chain" None _)) _).
  - simpl. intros [H | [H | [H | [H | [H | []]]]]]; discriminate H.
  - discriminate.
Defined.

(** ** Factory lookup *)

(** C6: on a populated cache a name that is absent from it fails with
    UnknownContractError; on an instance for which no compilation was
    performed every name fails with CacheEmptyError; and the two failures
    are different exceptions for every name, so the caller can tell the
    causes apart. *)
Theorem factory_lookup_failures_are_distinguished
        (self : BlockchainInterface) (contract_name : string) :
  (forall cache : gmap string CompiledInterface,
      raw_contract_cache self = Some cache ->
      cache !! contract_name = None ->
      get_contract_factory contract_name self
      = Raise (UnknownContractError contract_name))
  /\ (raw_contract_cache self = None ->
      get_contract_factory contract_name self = Raise CacheEmptyError)
  /\ UnknownContractError contract_name <> CacheEmptyError.
Proof.
  unfold get_contract_factory. repeat split.
  - intros cache Hcache Habsent. now rewrite Hcache, Habsent.
  - intros Hcache. now rewrite Hcache.
  - discriminate.
Qed.

(** ** The deployer address *)

(** C7: on an instance whose deployer address is already set, setting it
    again fails with DeployerAlreadySetError and the instance is left as it
    was, so the address set first is still the one read back. *)
Theorem deployer_address_is_write_once
        (self : BlockchainDeployerInterface) (first second : Address) :
  deployer_address self = Some first ->
  set_deployer_address second self = (Raise DeployerAlreadySetError, self)
  /\ deployer_address (snd (set_deployer_address second self)) = Some first.
Proof.
  intros Hset.
  assert (Hrun : set_deployer_address second self
                 = (Raise DeployerAlreadySetError, self)).
  { unfold set_deployer_address, py_bind, py_get, py_raise. simpl.
    now rewrite Hset. }
  split; [exact Hrun |].
  now rewrite Hrun.
Qed.

Lemma deployer_address_is_write_once_witness :
  deployer_address
    (snd (set_deployer_address "0xEE"
            (snd (set_deployer_address "0xDE"
                    (new_deployer_interface None (example_interface []))))))
  = Some "0xDE".
Proof.
  exact (proj2
           (deployer_address_is_write_once
              (snd (set_deployer_address "0xDE"
                      (new_deployer_interface None (example_interface []))))
              "0xDE" "0xEE" eq_refl)).
Defined.

(** ** Signature verification *)

Lemma bytes_eqb_eq (a b : bytes) : bytes_eqb a b = true <-> a = b.
Proof.
  unfold bytes_eqb.
  destruct (List.list_eq_dec Byte.byte_eq_dec a b); split; congruence.
Qed.

(** C8: for every public key, signature and message hash,
    [call_backend_verify] returns true exactly when the signature validates
    against the hash and the key recovered from the signature over the hash
    is the supplied key; a signature that validates but recovers another
    key verifies false. *)
Theorem call_backend_verify_iff
        (verify_msg_hash : Signature -> bytes -> PublicKey -> bool)
        (recover_public_key_from_msg_hash : Signature -> bytes -> PublicKey)
        (pubkey : PublicKey) (signature : Signature) (msg_hash : bytes) :
  (call_backend_verify verify_msg_hash recover_public_key_from_msg_hash
     pubkey signature msg_hash = true
   <-> verify_msg_hash signature msg_hash pubkey = true
       /\ recover_public_key_from_msg_hash signature msg_hash = pubkey)
  /\ (recover_public_key_from_msg_hash signature msg_hash <> pubkey ->
      call_backend_verify verify_msg_hash recover_public_key_from_msg_hash
        pubkey signature msg_hash = false).
Proof.
  unfold call_backend_verify. split.
  - rewrite andb_true_iff, bytes_eqb_eq. reflexivity.
  - intros Hother.
    destruct (bytes_eqb _ pubkey) eqn:Heq.
    + apply bytes_eqb_eq in Heq. contradiction.
    + apply andb_false_r.
Qed.

(** * Further properties of the module *)

(** ** Resolution through dispatchers *)

Lemma search_In (name : string) (registry : EthereumContractRegistry.t)
      (r : ContractRecord) :
  In r (EthereumContractRegistry.search name registry)
  <-> In r registry /\ record_name r = name.
Proof.
  unfold EthereumContractRegistry.search.
  rewrite filter_In, String.eqb_eq. reflexivity.
Qed.

(** Every pair a completed scan holds was already there or comes from a
    dispatcher whose read gave the address of one of the target records. *)
Lemma scan_dispatchers_pairs (w3 : Web3) (dispatchers targets : list ContractRecord) :
  forall (pairs found : list (Address * ABI)),
    scan_dispatchers w3 dispatchers targets pairs = Ok found ->
    forall p, In p found ->
      In p pairs
      \/ exists dispatcher target,
          In dispatcher dispatchers /\ In target targets
          /\ call_target w3 (record_addr dispatcher) = Ok (record_addr target)
          /\ p = (record_addr dispatcher, record_abi target).
Proof.
  induction dispatchers as [| [[dname daddr] dabi] dispatchers IH];
    intros pairs found Hscan p Hp; simpl in Hscan.
  - inversion Hscan; subst. now left.
  - destruct (call_target w3 daddr) as [live | e] eqn:Hread; simpl in Hscan;
      [| discriminate].
    destruct (IH _ _ Hscan p Hp) as [Hold | (d & t & Hd & Ht & Hlive & Heq)].
    + rewrite scan_targets_spec in Hold.
      apply in_app_or in Hold. destruct Hold as [Hold | Hnew]; [now left |].
      right. apply in_map_iff in Hnew. destruct Hnew as (t & Heq & Ht).
      apply filter_In in Ht. destruct Ht as [Ht Haddr].
      apply String.eqb_eq in Haddr.
      exists (dname, daddr, dabi), t. repeat split.
      * now left.
      * exact Ht.
      * unfold record_addr at 1. simpl. now rewrite Haddr.
      * now symmetry.
    + right. exists d, t. repeat split; auto. now right.
Qed.

(** The scan stops at the first dispatcher whose read raises. *)
Lemma scan_dispatchers_raises (w3 : Web3) (targets : list ContractRecord)
      (failing : ContractRecord) (after : list ContractRecord) (e : Error) :
  call_target w3 (record_addr failing) = Raise e ->
  forall (before : list ContractRecord) (pairs : list (Address * ABI)),
    Forall (fun d => exists a, call_target w3 (record_addr d) = Ok a) before ->
    scan_dispatchers w3 (before ++ failing :: after) targets pairs = Raise e.
Proof.
  intros Hfail before.
  induction before as [| [[dname daddr] dabi] before IH]; intros pairs Hreads; simpl.
  - destruct failing as [[fname faddr] fabi]. unfold record_addr in Hfail.
    simpl in Hfail. now rewrite Hfail.
  - inversion Hreads as [| d ds [a Hread] Hrest]; subst.
    unfold record_addr in Hread. simpl in Hread. rewrite Hread. simpl.
    now apply IH.
Qed.

(** X1: whenever upgradeable resolution returns a contract, that contract
    is [_wrap_contract] of a registered dispatcher and a registered record
    named [name], and the dispatcher's [target()] read gave that record's
    address. *)
Theorem upgradeable_result_is_wrapped_pair
        (w3 : Web3) (self : BlockchainInterface) (name : string) (c : Contract) :
  get_contract_by_name w3 self name true = Ok c ->
  exists dispatcher target,
    In dispatcher (registry self) /\ record_name dispatcher = "Dispatcher"
    /\ In target (registry self) /\ record_name target = name
    /\ call_target w3 (record_addr dispatcher) = Ok (record_addr target)
    /\ c = _wrap_contract
             (mkContract (record_abi dispatcher) (record_addr dispatcher))
             (mkContract (record_abi target) (record_addr target)).
Proof.
  unfold get_contract_by_name.
  destruct (EthereumContractRegistry.search name (registry self))
    as [| first others] eqn:Hsearch; [discriminate |].
  destruct (scan_dispatchers w3 _ (first :: others) []) as [found | e] eqn:Hscan;
    simpl; [| discriminate].
  destruct found as [| [daddr tabi] [| second rest]]; simpl; try discriminate.
  intros Hc. inversion Hc; subst c.
  destruct (scan_dispatchers_pairs w3 _ _ _ _ Hscan (daddr, tabi))
    as [[] | (d & t & Hd & Ht & Hlive & Heq)]; [now left |].
  rewrite <- Hsearch in Ht.
  apply search_In in Hd. apply search_In in Ht.
  exists d, t. inversion Heq; subst. unfold _wrap_contract. simpl. tauto.
Qed.

Lemma upgradeable_result_is_wrapped_pair_witness :
  exists dispatcher target,
    In dispatcher registry_one_dispatcher /\ record_name dispatcher = "Dispatcher"
    /\ In target registry_one_dispatcher /\ record_name target = "MinerEscrow"
    /\ call_target example_w3 (record_addr dispatcher) = Ok (record_addr target)
    /\ mkContract "abi1" "0xD1"
       = _wrap_contract
           (mkContract (record_abi dispatcher) (record_addr dispatcher))
           (mkContract (record_abi target) (record_addr target)).
Proof.
  exact (upgradeable_result_is_wrapped_pair example_w3
           (example_interface registry_one_dispatcher) "MinerEscrow"
           (mkContract "abi1" "0xD1") eq_refl).
Defined.

(** X2: when the [target()] read of a registered dispatcher raises, and the
    reads of the dispatchers registered before it succeed, upgradeable
    resolution of a name that has records raises that same exception. *)
Theorem upgradeable_read_failure_propagates
        (w3 : Web3) (self : BlockchainInterface) (name : string)
        (before after : list ContractRecord) (failing : ContractRecord)
        (e : Error) :
  EthereumContractRegistry.search name (registry self) <> [] ->
  EthereumContractRegistry.search "Dispatcher" (registry self)
  = before ++ failing :: after ->
  Forall (fun d => exists a, call_target w3 (record_addr d) = Ok a) before ->
  call_target w3 (record_addr failing) = Raise e ->
  get_contract_by_name w3 self name true = Raise e.
Proof.
  intros Hrecords Hdispatchers Hreads Hfail.
  unfold get_contract_by_name.
  destruct (EthereumContractRegistry.search name (registry self))
    as [| first others]; [congruence |].
  rewrite Hdispatchers.
  now rewrite (scan_dispatchers_raises w3 _ failing after e Hfail before []).
Qed.

Lemma upgradeable_read_failure_propagates_witness :
  get_contract_by_name unreachable_w3 (example_interface registry_one_dispatcher)
    "MinerEscrow" true
  = Raise (Web3Error "ConnectionError").
Proof.
  refine (upgradeable_read_failure_propagates unreachable_w3
            (example_interface registry_one_dispatcher) "MinerEscrow"
            [] [] ("Dispatcher", "0xD1", "dabi") (Web3Error "ConnectionError")
            _ eq_refl _ eq_refl).
  - simpl. discriminate.
  - constructor.
Defined.

Lemma filter_absent_address (records : list ContractRecord) (a : Address) :
  ~ In a (List.map record_addr records) ->
  List.filter (fun r : ContractRecord => String.eqb (record_addr r) a) records = [].
Proof.
  induction records as [| r records IH]; intros Habsent; [reflexivity |].
  simpl in *.
  destruct (String.eqb_spec (record_addr r) a) as [Heq | _].
  - exfalso. apply Habsent. now left.
  - apply IH. intros Hin. apply Habsent. now right.
Qed.

(** Among records with pairwise different addresses, the ones at the
    address of a record of the list are that record alone. *)
Lemma filter_unique_address (records : list ContractRecord) (target : ContractRecord) :
  List.NoDup (List.map record_addr records) ->
  In target records ->
  List.filter (fun r : ContractRecord => String.eqb (record_addr r) (record_addr target))
    records
  = [target].
Proof.
  induction records as [| r records IH]; intros Hnodup Hin; [contradiction |].
  simpl in Hnodup. inversion Hnodup as [| a l Hfresh Hrest]; subst.
  simpl. destruct Hin as [Heq | Hin].
  - subst r. rewrite String.eqb_refl. f_equal.
    now apply filter_absent_address.
  - destruct (String.eqb_spec (record_addr r) (record_addr target)) as [Heq | _].
    + exfalso. apply Hfresh. rewrite Heq. now apply in_map.
    + now apply IH.
Qed.

(** X3: with a single registered dispatcher and records named [name] at
    pairwise different addresses, upgradeable resolution returns the ABI of
    the record at the dispatcher's live target, bound at the dispatcher's
    address; and when there are two or more such records, resolution with
    [upgradeable = false] of the same name fails with the error for
    multiple records. *)
Theorem live_target_selects_the_version
        (w3 : Web3) (self : BlockchainInterface) (name : string)
        (dispatcher target : ContractRecord) :
  EthereumContractRegistry.search "Dispatcher" (registry self) = [dispatcher] ->
  List.NoDup
    (List.map record_addr (EthereumContractRegistry.search name (registry self))) ->
  In target (EthereumContractRegistry.search name (registry self)) ->
  call_target w3 (record_addr dispatcher) = Ok (record_addr target) ->
  get_contract_by_name w3 self name true
  = Ok (mkContract (record_abi target) (record_addr dispatcher))
  /\ (2 <= length (EthereumContractRegistry.search name (registry self)) ->
      get_contract_by_name w3 self name false = Raise (AmbiguousRecordError name)).
Proof.
  intros Hdispatchers Hdistinct Htarget Hread. split.
  - rewrite (upgradeable_outcome w3 self name (fun _ => record_addr target)).
    + unfold candidates. rewrite Hdispatchers. simpl.
      rewrite (filter_unique_address _ target Hdistinct Htarget). reflexivity.
    + intros Hnone. rewrite Hnone in Htarget. contradiction.
    + unfold reads_live_targets. rewrite Hdispatchers.
      constructor; [exact Hread | constructor].
  - intros Hseveral. unfold get_contract_by_name.
    destruct (EthereumContractRegistry.search name (registry self))
      as [| first [| second others]]; simpl in Hseveral; try lia.
    reflexivity.
Qed.

Lemma live_target_selects_the_version_witness :
  get_contract_by_name example_w3 (example_interface registry_two_versions)
    "MinerEscrow" true
  = Ok (mkContract "abi1" "0xD1")
  /\ get_contract_by_name example_w3 (example_interface registry_two_versions)
       "MinerEscrow" false
     = Raise (AmbiguousRecordError "MinerEscrow").
Proof.
  assert (Hdistinct :
            List.NoDup
              (List.map record_addr
                 (EthereumContractRegistry.search "MinerEscrow"
                    (registry (example_interface registry_two_versions))))).
  { simpl. repeat constructor; simpl; intros H;
      repeat (destruct H as [H | H]; [discriminate H |]); exact H. }
  destruct (live_target_selects_the_version example_w3
              (example_interface registry_two_versions) "MinerEscrow"
              ("Dispatcher", "0xD1", "dabi") ("MinerEscrow", "0xA1", "abi1")
              eq_refl Hdistinct (or_introl eq_refl) eq_refl)
    as [Hresolved Hdirect].
  split; [exact Hresolved |].
  apply Hdirect. simpl. lia.
Defined.

(** ** Lookup by address *)

(** X4: [get_contract_by_address] returns a record only if that record is
    in the registry at the given address, no record before it in the
    registry being at that address; and it raises the error for an unknown
    address exactly when no registry record is at the address. *)
Theorem get_contract_by_address_first_match
        (self : BlockchainInterface) (contract_address : Address) :
  (forall r,
      get_contract_by_address self contract_address = Ok r ->
      exists before after,
        registry self = before ++ r :: after
        /\ record_addr r = contract_address
        /\ ~ In contract_address (List.map record_addr before))
  /\ (get_contract_by_address self contract_address
      = Raise (InterfaceError ("No such contract with address " +:+ contract_address))
      <-> ~ In contract_address (List.map record_addr (registry self))).
Proof.
  unfold get_contract_by_address, get_contract_by_address_from, search_by_address.
  induction (registry self) as [| r0 records [IHfound IHnone]]; simpl.
  - split; [discriminate |]. tauto.
  - destruct (String.eqb_spec (record_addr r0) contract_address) as [Heq | Hne].
    + split.
      * intros r Hr. inversion Hr; subst r.
        exists [], records. simpl. auto.
      * split; [discriminate |]. intros Habsent. exfalso. apply Habsent. now left.
    + split.
      * intros r Hr. destruct (IHfound r Hr) as (before & after & Hsplit & Haddr & Hfirst).
        exists (r0 :: before), after. rewrite Hsplit. simpl.
        repeat split; auto. intros [Hhead | Htail]; auto.
      * rewrite IHnone. tauto.
Qed.

(** ** Deployment and the registry *)

Lemma search_enroll (name enrolled_name : string) (a : Address) (i : ABI)
      (registry : EthereumContractRegistry.t) :
  EthereumContractRegistry.search name
    (EthereumContractRegistry.enroll enrolled_name a i registry)
  = EthereumContractRegistry.search name registry
      ++ (if String.eqb enrolled_name name then [(enrolled_name, a, i)] else []).
Proof.
  unfold EthereumContractRegistry.search, EthereumContractRegistry.enroll.
  rewrite List.filter_app. simpl. unfold record_name at 2. simpl.
  now destruct (String.eqb enrolled_name name).
Qed.

(** A deployment that returns has gone through every step, and leaves the
    instance with the one record enrolled. *)
Lemma deploy_contract_success (w3 : Web3) (contract_name : string)
      (args : ConstructorArgs) (self self' : BlockchainDeployerInterface)
      (contract : Contract) (txhash : TxHash) :
  deploy_contract w3 contract_name args self = (Ok (contract, txhash), self') ->
  exists deployer gas_price contract_factory receipt,
    deployer_address self = Some deployer
    /\ eth_gasPrice w3 = Ok gas_price
    /\ get_contract_factory contract_name (base self) = Ok contract_factory
    /\ transact w3 contract_factory args (mkTransaction deployer gas_price) = Ok txhash
    /\ waitForTransactionReceipt w3 txhash = Ok receipt
    /\ contract = mkContract (factory_abi contract_factory) (contractAddress receipt)
    /\ self'
       = mkBlockchainDeployerInterface
           (set_registry
              (EthereumContractRegistry.enroll contract_name
                 (contractAddress receipt) (factory_abi contract_factory)
                 (registry (base self)))
              (base self))
           (deployer_address self).
Proof.
  rewrite deploy_contract_outcome. intros Hrun.
  destruct (deployer_address self) as [deployer |] eqn:Hdeployer; [| discriminate].
  destruct (eth_gasPrice w3) as [gas_price | e]; [| discriminate].
  destruct (get_contract_factory contract_name (base self))
    as [contract_factory | e]; [| discriminate].
  cbv zeta in Hrun.
  destruct (buildTransaction w3 contract_factory args _) as [data | e];
    [| discriminate].
  destruct (transact w3 contract_factory args _) as [sent | e] eqn:Hsent;
    [| discriminate].
  destruct (waitForTransactionReceipt w3 sent) as [receipt | e] eqn:Hreceipt;
    [| discriminate].
  inversion Hrun; subst.
  exists deployer, gas_price, contract_factory, receipt. auto 10.
Qed.

(** A deployment that raises leaves the instance as it was. *)
Lemma deploy_contract_failure (w3 : Web3) (contract_name : string)
      (args : ConstructorArgs) (self self' : BlockchainDeployerInterface)
      (e : Error) :
  deploy_contract w3 contract_name args self = (Raise e, self') -> self' = self.
Proof.
  rewrite deploy_contract_outcome. intros Hrun.
  destruct (deployer_address self) as [deployer |]; [| now inversion Hrun].
  destruct (eth_gasPrice w3) as [gas_price | e1]; [| now inversion Hrun].
  destruct (get_contract_factory contract_name (base self))
    as [contract_factory | e2]; [| now inversion Hrun].
  cbv zeta in Hrun.
  destruct (buildTransaction w3 contract_factory args _) as [data | e3];
    [| now inversion Hrun].
  destruct (transact w3 contract_factory args _) as [sent | e4];
    [| now inversion Hrun].
  destruct (waitForTransactionReceipt w3 sent) as [receipt | e5];
    now inversion Hrun.
Qed.

(** X5: after a deployment that returns, on a registry that had no record
    of the contract's name, resolving that name with [upgradeable = false]
    returns the very contract the deployment returned: the address of the
    receipt with the factory's ABI. *)
Theorem deploy_then_resolve
        (w3 node : Web3) (contract_name : string) (args : ConstructorArgs)
        (self self' : BlockchainDeployerInterface)
        (contract : Contract) (txhash : TxHash) :
  EthereumContractRegistry.search contract_name (registry (base self)) = [] ->
  deploy_contract w3 contract_name args self = (Ok (contract, txhash), self') ->
  get_contract_by_name node (base self') contract_name false = Ok contract.
Proof.
  intros Hnew Hrun.
  destruct (deploy_contract_success _ _ _ _ _ _ _ Hrun)
    as (deployer & gas_price & f & receipt & _ & _ & _ & _ & _ & Hc & Hself).
  subst. unfold get_contract_by_name. simpl.
  rewrite search_enroll, Hnew, String.eqb_refl. reflexivity.
Qed.

Lemma deploy_then_resolve_witness :
  get_contract_by_name example_w3
    (base (snd (deploy_contract deploying_w3 "MinerEscrow" [] fresh_deployer)))
    "MinerEscrow" false
  = Ok (mkContract "abi1" "0xC:0x6080").
Proof.
  apply (deploy_then_resolve deploying_w3 example_w3 "MinerEscrow" []
           fresh_deployer _ _ "0xC:0x6080" eq_refl).
  vm_compute. reflexivity.
Defined.

(** X6: after a deployment that returns, of a name the registry already
    had a record of, resolving that name with [upgradeable = false] fails
    with the error for multiple records. *)
Theorem redeploy_makes_direct_lookup_ambiguous
        (w3 node : Web3) (contract_name : string) (args : ConstructorArgs)
        (self self' : BlockchainDeployerInterface)
        (contract : Contract) (txhash : TxHash) :
  EthereumContractRegistry.search contract_name (registry (base self)) <> [] ->
  deploy_contract w3 contract_name args self = (Ok (contract, txhash), self') ->
  get_contract_by_name node (base self') contract_name false
  = Raise (AmbiguousRecordError contract_name).
Proof.
  intros Hold Hrun.
  destruct (deploy_contract_success _ _ _ _ _ _ _ Hrun)
    as (deployer & gas_price & f & receipt & _ & _ & _ & _ & _ & Hc & Hself).
  subst. unfold get_contract_by_name. simpl.
  rewrite search_enroll, String.eqb_refl.
  destruct (EthereumContractRegistry.search contract_name (registry (base self)))
    as [| first others]; [congruence |].
  destruct others; reflexivity.
Qed.

Lemma redeploy_makes_direct_lookup_ambiguous_witness :
  get_contract_by_name example_w3
    (base
       (snd (deploy_contract deploying_w3 "MinerEscrow" []
               (snd (deploy_contract deploying_w3 "MinerEscrow" [] fresh_deployer)))))
    "MinerEscrow" false
  = Raise (AmbiguousRecordError "MinerEscrow").
Proof.
  apply (redeploy_makes_direct_lookup_ambiguous deploying_w3 example_w3
           "MinerEscrow" []
           (snd (deploy_contract deploying_w3 "MinerEscrow" [] fresh_deployer))
           _ (mkContract "abi1" "0xC:0x6080") "0xC:0x6080").
  - vm_compute. discriminate.
  - vm_compute. reflexivity.
Defined.

(** X7: whatever its outcome, [deploy_contract] leaves the deployer
    address, the provider list and the factory cache untouched, keeps every
    registry record in place, adds at most one record, at the end and
    under the deployed name, and so never changes what a search for another
    name finds. *)
Theorem deploy_contract_only_appends
        (w3 : Web3) (contract_name : string) (args : ConstructorArgs)
        (self self' : BlockchainDeployerInterface)
        (outcome : Result (Contract * TxHash)) :
  deploy_contract w3 contract_name args self = (outcome, self') ->
  deployer_address self' = deployer_address self
  /\ providers (base self') = providers (base self)
  /\ raw_contract_cache (base self') = raw_contract_cache (base self)
  /\ (exists added,
         registry (base self') = registry (base self) ++ added
         /\ length added <= 1
         /\ Forall (fun r => record_name r = contract_name) added)
  /\ (forall other,
         other <> contract_name ->
         EthereumContractRegistry.search other (registry (base self'))
         = EthereumContractRegistry.search other (registry (base self))).
Proof.
  intros Hrun. destruct outcome as [[contract txhash] | e].
  - destruct (deploy_contract_success _ _ _ _ _ _ _ Hrun)
      as (deployer & gas_price & f & receipt & _ & _ & _ & _ & _ & _ & Hself).
    subst self'. simpl. repeat split.
    + eexists. split; [reflexivity |]. split; [simpl; lia |].
      constructor; [reflexivity | constructor].
    + intros other Hother. rewrite search_enroll.
      destruct (String.eqb_spec contract_name other) as [Heq | _];
        [congruence | apply app_nil_r].
  - rewrite (deploy_contract_failure _ _ _ _ _ _ Hrun). repeat split.
    exists []. rewrite app_nil_r. repeat split; [simpl; lia | constructor].
Qed.

Lemma deploy_contract_only_appends_witness :
  registry (base (snd (deploy_contract deploying_w3 "MinerEscrow" [] example_deployer)))
  = registry_without_escrow ++ [("MinerEscrow", "0xC:0x6080", "abi1")]
  /\ EthereumContractRegistry.search "PolicyManager"
       (registry
          (base (snd (deploy_contract deploying_w3 "MinerEscrow" [] example_deployer))))
     = [("PolicyManager", "0xA1", "pabi")].
Proof.
  destruct (deploy_contract_only_appends deploying_w3 "MinerEscrow" []
              example_deployer _ _ (surjective_pairing _))
    as (_ & _ & _ & _ & Hothers).
  split; [vm_compute; reflexivity |].
  rewrite Hothers; [reflexivity | discriminate].
Defined.

(** X8: on an instance for which no compilation was performed,
    [deploy_contract] never deploys: for every node, name and arguments it
    raises and leaves the instance as it was. *)
Theorem no_compilation_no_deployment
        (w3 : Web3) (contract_name : string) (args : ConstructorArgs)
        (self : BlockchainDeployerInterface) :
  raw_contract_cache (base self) = None ->
  exists e, deploy_contract w3 contract_name args self = (Raise e, self).
Proof.
  intros Hcache. rewrite deploy_contract_outcome.
  unfold get_contract_factory. rewrite Hcache.
  destruct (deployer_address self); [| eauto].
  destruct (eth_gasPrice w3); eauto.
Qed.

Lemma no_compilation_no_deployment_witness :
  exists e,
    deploy_contract deploying_w3 "MinerEscrow" []
      (mkBlockchainDeployerInterface (example_interface []) (Some "0xDE"))
    = (Raise e, mkBlockchainDeployerInterface (example_interface []) (Some "0xDE")).
Proof.
  exact (no_compilation_no_deployment deploying_w3 "MinerEscrow" []
           (mkBlockchainDeployerInterface (example_interface []) (Some "0xDE"))
           eq_refl).
Defined.

(** X9: after a deployment that returns, at an address no registry record
    had, [get_contract_by_address] at the returned contract's address gives
    the record just enrolled: the deployed name, that address and the
    returned contract's ABI. *)
Theorem deploy_then_lookup_by_address
        (w3 : Web3) (contract_name : string) (args : ConstructorArgs)
        (self self' : BlockchainDeployerInterface)
        (contract : Contract) (txhash : TxHash) :
  deploy_contract w3 contract_name args self = (Ok (contract, txhash), self') ->
  ~ In (address contract) (List.map record_addr (registry (base self))) ->
  get_contract_by_address (base self') (address contract)
  = Ok (contract_name, address contract, abi contract).
Proof.
  intros Hrun Hfresh.
  destruct (deploy_contract_success _ _ _ _ _ _ _ Hrun)
    as (deployer & gas_price & f & receipt & _ & _ & _ & _ & _ & Hc & Hself).
  subst. simpl in *.
  unfold get_contract_by_address, search_by_address,
    EthereumContractRegistry.enroll. simpl.
  rewrite List.filter_app, (filter_absent_address _ _ Hfresh). simpl.
  unfold record_addr at 1. simpl. now rewrite String.eqb_refl.
Qed.

Lemma deploy_then_lookup_by_address_witness :
  get_contract_by_address
    (base (snd (deploy_contract deploying_w3 "MinerEscrow" [] example_deployer)))
    "0xC:0x6080"
  = Ok ("MinerEscrow", "0xC:0x6080", "abi1").
Proof.
  apply (deploy_then_lookup_by_address deploying_w3 "MinerEscrow" []
           example_deployer _ (mkContract "abi1" "0xC:0x6080") "0xC:0x6080").
  - vm_compute. reflexivity.
  - simpl. intros [H | [H | []]]; discriminate H.
Defined.

(** X10: deploy a contract and then a dispatcher, on a registry that had
    neither a record of the contract's name nor a dispatcher; on every
    node on which the deployed dispatcher's [target()] reads the deployed
    contract's address, upgradeable resolution of the name returns
    [_wrap_contract] of the two deployed contracts. *)
Theorem deploy_behind_dispatcher_then_resolve
        (w3 node : Web3) (contract_name : string) (args dispatcher_args : ConstructorArgs)
        (self self1 self2 : BlockchainDeployerInterface)
        (target dispatcher : Contract) (txhash1 txhash2 : TxHash) :
  contract_name <> "Dispatcher" ->
  EthereumContractRegistry.search contract_name (registry (base self)) = [] ->
  EthereumContractRegistry.search "Dispatcher" (registry (base self)) = [] ->
  deploy_contract w3 contract_name args self = (Ok (target, txhash1), self1) ->
  deploy_contract w3 "Dispatcher" dispatcher_args self1
  = (Ok (dispatcher, txhash2), self2) ->
  call_target node (address dispatcher) = Ok (address target) ->
  get_contract_by_name node (base self2) contract_name true
  = Ok (_wrap_contract dispatcher target).
Proof.
  intros Hname Hnew Hnodispatcher Hrun1 Hrun2 Hlive.
  destruct (deploy_contract_success _ _ _ _ _ _ _ Hrun1)
    as (deployer1 & gas1 & f1 & receipt1 & _ & _ & _ & _ & _ & Htarget & Hself1).
  destruct (deploy_contract_success _ _ _ _ _ _ _ Hrun2)
    as (deployer2 & gas2 & f2 & receipt2 & _ & _ & _ & _ & _ & Hdispatcher & Hself2).
  subst target dispatcher. simpl in Hlive.
  assert (Hrecords :
            EthereumContractRegistry.search contract_name (registry (base self2))
            = [(contract_name, contractAddress receipt1, factory_abi f1)]).
  { subst self2 self1. simpl. rewrite !search_enroll, Hnew, String.eqb_refl.
    destruct (String.eqb_spec "Dispatcher" contract_name) as [Heq | _];
      [congruence | reflexivity]. }
  assert (Hdispatchers :
            EthereumContractRegistry.search "Dispatcher" (registry (base self2))
            = [("Dispatcher", contractAddress receipt2, factory_abi f2)]).
  { subst self2 self1. simpl. rewrite !search_enroll, Hnodispatcher.
    destruct (String.eqb_spec contract_name "Dispatcher") as [Heq | _];
      [congruence | reflexivity]. }
  rewrite (upgradeable_outcome node (base self2) contract_name
             (fun _ => contractAddress receipt1)).
  - unfold candidates. rewrite Hrecords, Hdispatchers. simpl.
    unfold record_addr at 1. simpl. now rewrite String.eqb_refl.
  - rewrite Hrecords. discriminate.
  - unfold reads_live_targets. rewrite Hdispatchers.
    constructor; [exact Hlive | constructor].
Qed.

Lemma deploy_behind_dispatcher_then_resolve_witness :
  get_contract_by_name deploying_w3
    (base
       (snd (deploy_contract deploying_w3 "Dispatcher" []
               (snd (deploy_contract deploying_w3 "MinerEscrow" [] fresh_deployer)))))
    "MinerEscrow" true
  = Ok (mkContract "abi1" "0xC:0x6081").
Proof.
  apply (deploy_behind_dispatcher_then_resolve deploying_w3 deploying_w3
           "MinerEscrow" [] [] fresh_deployer
           (snd (deploy_contract deploying_w3 "MinerEscrow" [] fresh_deployer))
           _ (mkContract "abi1" "0xC:0x6080") (mkContract "dabi" "0xC:0x6081")
           "0xC:0x6080" "0xC:0x6081").
  - discriminate.
  - reflexivity.
  - reflexivity.
  - vm_compute. reflexivity.
  - vm_compute. reflexivity.
  - reflexivity.
Defined.

(** ** Signatures *)

(** X11: for a given signature and message hash, [call_backend_verify]
    accepts at most one public key: once it returns true for a key, it
    returns false for every other key, whatever the primitives answer. *)
Theorem call_backend_verify_accepts_one_key
        (verify_msg_hash : Signature -> bytes -> PublicKey -> bool)
        (recover_public_key_from_msg_hash : Signature -> bytes -> PublicKey)
        (accepted other : PublicKey) (signature : Signature) (msg_hash : bytes) :
  call_backend_verify verify_msg_hash recover_public_key_from_msg_hash
    accepted signature msg_hash = true ->
  other <> accepted ->
  call_backend_verify verify_msg_hash recover_public_key_from_msg_hash
    other signature msg_hash = false.
Proof.
  unfold call_backend_verify. intros Haccepted Hother.
  apply andb_true_iff in Haccepted. destruct Haccepted as [_ Hrecovered].
  apply bytes_eqb_eq in Hrecovered.
  destruct (bytes_eqb _ other) eqn:Heq.
  - apply bytes_eqb_eq in Heq. congruence.
  - apply andb_false_r.
Qed.

Lemma call_backend_verify_accepts_one_key_witness :
  call_backend_verify (fun _ _ _ => true) (fun signature _ => signature)
    [Byte.x02] [Byte.x01] [Byte.xff]
  = false.
Proof.
  apply (call_backend_verify_accepts_one_key (fun _ _ _ => true)
           (fun signature _ => signature) [Byte.x01] [Byte.x02] [Byte.x01]
           [Byte.xff]).
  - reflexivity.
  - discriminate.
Defined.

(** ** Providers *)

Section MoreProviderProperties.

Variable urlparse : string -> ParseResult.
Variable NUCYPHER_GAS_LIMIT : Z.

Lemma add_provider_instance_noop (self : BlockchainInterface) (instance : Provider)
      (provider_uri : option string) (timeout : option Z) :
  add_provider urlparse NUCYPHER_GAS_LIMIT (Some instance) provider_uri timeout self
  = (Ok tt, self).
Proof.
  unfold add_provider, truthy. simpl. now rewrite !andb_false_r.
Qed.

Lemma add_provider_missing_uri (self : BlockchainInterface)
      (provider_uri : option string) (timeout : option Z) :
  truthy_str provider_uri = false ->
  add_provider urlparse NUCYPHER_GAS_LIMIT None provider_uri timeout self
  = (Raise ConfigurationError, self).
Proof.
  intros Hmissing. unfold add_provider. rewrite Hmissing. reflexivity.
Qed.

Lemma add_provider_uri_outcome (self : BlockchainInterface) (uri : string)
      (timeout : option Z) :
  uri <> "" ->
  add_provider urlparse NUCYPHER_GAS_LIMIT None (Some uri) timeout self
  = match provider_of_uri urlparse NUCYPHER_GAS_LIMIT uri timeout with
    | Ok built => (Ok tt, set_providers (Some (provider_list self ++ [built])) self)
    | Raise e => (Raise e, self)
    end.
Proof.
  intros Hpresent. unfold add_provider, truthy_str, truthy.
  apply String.eqb_neq in Hpresent. rewrite Hpresent. simpl.
  unfold py_bind, py_lift.
  destruct (provider_of_uri urlparse NUCYPHER_GAS_LIMIT uri timeout); reflexivity.
Qed.

End MoreProviderProperties.

(** X12: the chain of tests on the parsed URI builds a provider exactly
    for the schemes ipc, ws, http and https, and for the scheme tester with
    the network location pyevm or geth; every other URI is refused. *)
Theorem provider_of_uri_accepts
        (urlparse : string -> ParseResult) (NUCYPHER_GAS_LIMIT : Z)
        (uri : string) (timeout : option Z) :
  (exists built, provider_of_uri urlparse NUCYPHER_GAS_LIMIT uri timeout = Ok built)
  <-> In (scheme (urlparse uri)) ["ipc"; "ws"; "http"; "https"]
      \/ (scheme (urlparse uri) = "tester"
          /\ In (netloc (urlparse uri)) ["pyevm"; "geth"]).
Proof.
  unfold provider_of_uri. cbv zeta. simpl.
  destruct (String.eqb_spec (scheme (urlparse uri)) "tester") as [Htester | Htester].
  - rewrite Htester.
    destruct (String.eqb_spec (netloc (urlparse uri)) "pyevm") as [Hpyevm | Hpyevm];
      [split; eauto 6 |].
    destruct (String.eqb_spec (netloc (urlparse uri)) "geth") as [Hgeth | Hgeth];
      [split; eauto 6 |].
    split.
    + intros [built Hbuilt]. discriminate.
    + intros [[H | [H | [H | [H | []]]]] | [_ [H | [H | []]]]];
        try discriminate H; congruence.
  - destruct (String.eqb_spec (scheme (urlparse uri)) "ipc") as [Hipc | Hipc];
      [split; eauto 6 |].
    destruct (String.eqb_spec (scheme (urlparse uri)) "ws") as [Hws | Hws];
      [split; eauto 6 |].
    destruct (String.eqb_spec (scheme (urlparse uri)) "http") as [Hhttp | Hhttp];
      [split; eauto 7 |].
    destruct (String.eqb_spec (scheme (urlparse uri)) "https") as [Hhttps | Hhttps];
      [split; eauto 8 |].
    split.
    + intros [built Hbuilt]. discriminate.
    + intros [[H | [H | [H | [H | []]]]] | [H _]]; congruence.
Qed.

(** X13: whatever its arguments and its outcome, [add_provider] keeps
    every provider already in the list, in order, and adds at most one, at
    the end; it leaves the registry and the factory cache untouched; when
    it raises, the instance is as it was; and a provider list that exists
    is never left empty. *)
Theorem add_provider_keeps_the_list
        (urlparse : string -> ParseResult) (NUCYPHER_GAS_LIMIT : Z)
        (self : BlockchainInterface) (provider : option Provider)
        (provider_uri : option string) (timeout : option Z) :
  let after :=
    snd (add_provider urlparse NUCYPHER_GAS_LIMIT provider provider_uri timeout self) in
  (exists added, provider_list after = provider_list self ++ added /\ length added <= 1)
  /\ registry after = registry self
  /\ raw_contract_cache after = raw_contract_cache self
  /\ (forall e,
         fst (add_provider urlparse NUCYPHER_GAS_LIMIT provider provider_uri timeout
                self)
         = Raise e ->
         after = self)
  /\ (providers_well_formed self -> providers_well_formed after).
Proof.
  assert (Hsame :
            forall outcome,
              add_provider urlparse NUCYPHER_GAS_LIMIT provider provider_uri timeout
                self
              = (outcome, self) ->
              let after :=
                snd (add_provider urlparse NUCYPHER_GAS_LIMIT provider provider_uri
                       timeout self) in
              (exists added,
                  provider_list after = provider_list self ++ added
                  /\ length added <= 1)
              /\ registry after = registry self
              /\ raw_contract_cache after = raw_contract_cache self
              /\ (forall e,
                     fst (add_provider urlparse NUCYPHER_GAS_LIMIT provider
                            provider_uri timeout self)
                     = Raise e ->
                     after = self)
              /\ (providers_well_formed self -> providers_well_formed after)).
  { intros outcome Hrun. cbv zeta. rewrite Hrun. simpl. repeat split; auto.
    exists []. rewrite app_nil_r. split; [reflexivity | simpl; lia]. }
  destruct provider as [instance |].
  - apply (Hsame (Ok tt)). apply add_provider_instance_noop.
  - destruct (truthy_str provider_uri) eqn:Hgiven.
    + destruct provider_uri as [uri |]; [| discriminate].
      assert (Hpresent : uri <> "").
      { unfold truthy_str in Hgiven. apply negb_true_iff in Hgiven.
        now apply String.eqb_neq. }
      pose proof (add_provider_uri_outcome urlparse NUCYPHER_GAS_LIMIT self uri
                    timeout Hpresent) as Hrun.
      destruct (provider_of_uri urlparse NUCYPHER_GAS_LIMIT uri timeout)
        as [built | e]; [| exact (Hsame _ Hrun)].
      cbv zeta. rewrite Hrun. simpl. repeat split.
      * exists [built]. split; [reflexivity | simpl; lia].
      * discriminate.
      * intros _. unfold providers_well_formed. simpl.
        intros Hempty. inversion Hempty as [Hnil].
        destruct (provider_list self); discriminate Hnil.
    + apply (Hsame (Raise ConfigurationError)).
      now apply add_provider_missing_uri.
Qed.

(** X14: when a run of [add_provider] calls, one per URI of a list, all
    return, the provider list afterwards is the list before followed by the
    providers built for the URIs, in the order of the calls. *)
Theorem add_provider_keeps_call_order
        (urlparse : string -> ParseResult) (NUCYPHER_GAS_LIMIT : Z)
        (timeout : option Z) (uris : list string)
        (self self' : BlockchainInterface) :
  py_for uris
    (fun uri => add_provider urlparse NUCYPHER_GAS_LIMIT None (Some uri) timeout)
    self
  = (Ok tt, self') ->
  exists built,
    List.Forall2
      (fun uri provider =>
         provider_of_uri urlparse NUCYPHER_GAS_LIMIT uri timeout = Ok provider)
      uris built
    /\ provider_list self' = provider_list self ++ built.
Proof.
  revert self. induction uris as [| uri uris IH]; intros self Hrun; simpl in Hrun.
  - inversion Hrun; subst. exists []. split; [constructor | now rewrite app_nil_r].
  - unfold py_bind in Hrun.
    destruct (String.eqb_spec uri "") as [Hempty | Hpresent].
    + subst uri. simpl in Hrun. discriminate.
    + rewrite (add_provider_uri_outcome urlparse NUCYPHER_GAS_LIMIT self uri
                 timeout Hpresent) in Hrun.
      destruct (provider_of_uri urlparse NUCYPHER_GAS_LIMIT uri timeout)
        as [first | e] eqn:Hfirst; [| discriminate].
      destruct (IH _ Hrun) as (rest & Hrest & Hlist).
      exists (first :: rest). split; [now constructor |].
      rewrite Hlist. unfold provider_list at 1. simpl.
      now rewrite <- app_assoc.
Qed.

Lemma add_provider_keeps_call_order_witness :
  exists built,
    List.Forall2
      (fun uri provider => provider_of_uri urlparse_plain 8000000 uri None = Ok provider)
      ["ipc:///tmp/geth.ipc"; "http://localhost:8545"] built
    /\ provider_list
         (snd (py_for ["ipc:///tmp/geth.ipc"; "http://localhost:8545"]
                 (fun uri => add_provider urlparse_plain 8000000 None (Some uri) None)
                 (example_interface [])))
       = provider_list (example_interface []) ++ built.
Proof.
  apply (add_provider_keeps_call_order urlparse_plain 8000000 None
           ["ipc:///tmp/geth.ipc"; "http://localhost:8545"] (example_interface [])).
  vm_compute. reflexivity.
Defined.

Example add_two_providers :
  provider_list
    (snd (py_for ["ipc:///tmp/geth.ipc"; "http://localhost:8545"]
            (fun uri => add_provider urlparse_plain 8000000 None (Some uri) None)
            (example_interface [])))
  = [IPCProvider "/tmp/geth.ipc" None; HTTPProvider "http://localhost:8545"].
Proof. reflexivity. Qed.

(** ** Connection and construction *)

Section ConnectionProperties.

Variable str_providers : list Provider -> string.
Variable str_provider_uri : ProviderURI -> string.
Variable urlparse : string -> ParseResult.
Variable NUCYPHER_GAS_LIMIT : Z.
Variable default_registry : EthereumContractRegistry.t.

Lemma set_core_same (self : Instance) : set_core (core self) self = self.
Proof. now destruct self. Qed.

Lemma connect_outcome (isConnected : nat -> bool) (self : Instance) :
  connect str_providers str_provider_uri isConnected self
  = match providers (core self) with
    | None =>
        (Raise (InterfaceError "There are no configured blockchain providers"), self)
    | Some configured =>
        (if negb (isConnected 0) then
           Raise (InterfaceError
                    ("Failed to connect to providers: " +:+ str_providers configured))
         else if isConnected 1 then Ok (isConnected 2)
         else
           Raise (InterfaceError
                    ("Failed to connect to " +:+ str_provider_uri (provider_uri self)
                       +:+ ". Check your connection.")),
         set_w3 (Some configured) self)
    end.
Proof.
  unfold connect, py_bind, py_get, py_put, py_raise, py_ret.
  destruct (providers (core self)) as [configured |]; [| reflexivity].
  destruct (isConnected 0); simpl; [| reflexivity].
  destruct (isConnected 1); reflexivity.
Qed.

(** X15: [connect] returns exactly when a provider list is configured and
    the first two readings of [is_connected] are true; it then returns the
    third reading, and [self.w3] is the client built from the whole
    provider list. *)
Theorem connect_returns_iff (isConnected : nat -> bool) (self self' : Instance)
        (answer : bool) :
  connect str_providers str_provider_uri isConnected self = (Ok answer, self')
  <-> exists configured,
        providers (core self) = Some configured
        /\ isConnected 0 = true /\ isConnected 1 = true
        /\ answer = isConnected 2
        /\ self' = set_w3 (Some configured) self.
Proof.
  rewrite connect_outcome. split.
  - destruct (providers (core self)) as [configured |]; [| discriminate].
    destruct (isConnected 0); simpl; [| discriminate].
    destruct (isConnected 1); [| discriminate].
    intros Hrun. inversion Hrun; subst. exists configured. auto.
  - intros (configured & Hconfigured & Hfirst & Hsecond & Hanswer & Hself).
    rewrite Hconfigured, Hfirst, Hsecond. simpl. now subst.
Qed.

(** X16: whatever its outcome, [connect] changes no attribute but
    [self.w3]; when a provider list is configured it installs the client
    built from that list, also when it then raises because the node does
    not answer; without a provider list it leaves [self.w3] as it was. *)
Theorem connect_installs_client (isConnected : nat -> bool) (self self' : Instance)
        (outcome : Result bool) :
  connect str_providers str_provider_uri isConnected self = (outcome, self') ->
  core self' = core self
  /\ provider_uri self' = provider_uri self
  /\ network self' = network self
  /\ timeout self' = timeout self
  /\ autoconnect self' = autoconnect self
  /\ w3 self'
     = match providers (core self) with
       | Some configured => Some configured
       | None => w3 self
       end.
Proof.
  rewrite connect_outcome.
  destruct (providers (core self)) as [configured |];
    intros Hrun; inversion Hrun; subst; simpl; auto 10.
Qed.

Lemma py_for_instances_noop (given : list Provider) (self : Instance) :
  py_for given
    (fun provider =>
       on_core (add_provider urlparse NUCYPHER_GAS_LIMIT (Some provider) None None))
    self
  = (Ok tt, self).
Proof.
  induction given as [| provider given IH]; simpl; [reflexivity |].
  unfold py_bind, on_core at 1.
  rewrite add_provider_instance_noop, set_core_same. exact IH.
Qed.

End ConnectionProperties.

Lemma connect_installs_client_witness :
  w3 (snd (connect example_str_providers example_str_provider_uri node_down
             example_instance))
  = Some [HTTPProvider "http://localhost:8545"]
  /\ fst (connect example_str_providers example_str_provider_uri node_down
            example_instance)
     = Raise (InterfaceError "Failed to connect to providers: [...]").
Proof.
  split; [| reflexivity].
  exact (proj2 (proj2 (proj2 (proj2 (proj2
           (connect_installs_client example_str_providers example_str_provider_uri
              node_down example_instance _ _ (surjective_pairing _))))))).
Defined.

Section ConstructionProperties.

Variable str_providers : list Provider -> string.
Variable str_provider_uri : ProviderURI -> string.
Variable urlparse : string -> ParseResult.
Variable NUCYPHER_GAS_LIMIT : Z.
Variable default_registry : EthereumContractRegistry.t.

Variable network_name : option string.
Variable timeout_arg : option Z.
Variable registry_arg : option EthereumContractRegistry.t.
Variable compiler : option (gmap string CompiledInterface).
Variable isConnected : nat -> bool.

Local Opaque connect.

Abbreviation init_with provider_uri_arg providers_arg autoconnect_arg :=
  (init str_providers str_provider_uri urlparse NUCYPHER_GAS_LIMIT default_registry
     network_name provider_uri_arg providers_arg autoconnect_arg timeout_arg
     registry_arg compiler isConnected) (only parsing).

Abbreviation constructed_with autoconnect_arg configured uri_attr :=
  (constructed default_registry network_name autoconnect_arg timeout_arg
     registry_arg compiler configured uri_attr) (only parsing).

Lemma init_from_both (provider_uri_arg : option string)
      (providers_arg : option (list Provider)) (autoconnect_arg : bool) :
  truthy_str provider_uri_arg = true ->
  truthy_list providers_arg = true ->
  init_with provider_uri_arg providers_arg autoconnect_arg
  = Raise (InterfaceError
             "Pass a provider URI string, or a list of provider instances.").
Proof.
  intros Huri Hproviders. unfold init, init_body, py_bind.
  rewrite Huri, Hproviders. reflexivity.
Qed.

Lemma init_from_nothing (provider_uri_arg : option string)
      (providers_arg : option (list Provider)) (autoconnect_arg : bool) :
  truthy_str provider_uri_arg = false ->
  truthy_list providers_arg = false ->
  init_with provider_uri_arg providers_arg autoconnect_arg
  = after_autoconnect str_providers str_provider_uri isConnected autoconnect_arg
      (constructed_with autoconnect_arg None URI_NO_BLOCKCHAIN_CONNECTION).
Proof.
  intros Huri Hproviders. unfold init, init_body, py_bind, after_autoconnect.
  rewrite Huri, Hproviders. simpl.
  destruct autoconnect_arg; [| reflexivity].
  unfold constructed.
  destruct (connect _ _ _ _) as [[answer | e] connected]; reflexivity.
Qed.

Lemma init_from_providers (provider_uri_arg : option string)
      (given : list Provider) (autoconnect_arg : bool) :
  truthy_str provider_uri_arg = false ->
  given <> [] ->
  init_with provider_uri_arg (Some given) autoconnect_arg
  = after_autoconnect str_providers str_provider_uri isConnected autoconnect_arg
      (constructed_with autoconnect_arg (Some given) MANUAL_PROVIDERS_SET).
Proof.
  intros Huri Hgiven. unfold init, init_body, after_autoconnect.
  assert (Htruthy : truthy_list (Some given) = true)
    by (destruct given; [congruence | reflexivity]).
  rewrite Huri, Htruthy. simpl.
  unfold py_bind at 1 2 3. simpl.
  rewrite py_for_instances_noop. simpl.
  destruct autoconnect_arg; [| reflexivity].
  unfold py_bind, constructed. simpl.
  destruct (connect _ _ _ _) as [[answer | e] connected]; reflexivity.
Qed.

Lemma init_from_uri (uri : string) (providers_arg : option (list Provider))
      (autoconnect_arg : bool) :
  uri <> "" ->
  truthy_list providers_arg = false ->
  init_with (Some uri) providers_arg autoconnect_arg
  = match provider_of_uri urlparse NUCYPHER_GAS_LIMIT uri None with
    | Raise e => Raise e
    | Ok built =>
        after_autoconnect str_providers str_provider_uri isConnected autoconnect_arg
          (constructed_with autoconnect_arg (Some [built]) (URI uri))
    end.
Proof.
  intros Hpresent Hproviders. unfold init, init_body, after_autoconnect.
  assert (Htruthy : truthy_str (Some uri) = true).
  { simpl. apply negb_true_iff. now apply String.eqb_neq. }
  rewrite Htruthy, Hproviders. simpl.
  unfold py_bind at 1 2 3. simpl. unfold on_core. simpl.
  rewrite (add_provider_uri_outcome urlparse NUCYPHER_GAS_LIMIT _ uri None Hpresent).
  destruct (provider_of_uri urlparse NUCYPHER_GAS_LIMIT uri None) as [built | e];
    [| reflexivity].
  simpl. destruct autoconnect_arg; [| reflexivity].
  unfold py_bind, constructed. simpl.
  destruct (connect _ _ _ _) as [[answer | e] connected]; reflexivity.
Qed.

Local Transparent connect.

Lemma after_autoconnect_returns (autoconnect_arg : bool) (self built : Instance) :
  after_autoconnect str_providers str_provider_uri isConnected autoconnect_arg self
  = Ok built ->
  core built = core self
  /\ provider_uri built = provider_uri self
  /\ network built = network self
  /\ timeout built = timeout self
  /\ autoconnect built = autoconnect self
  /\ (autoconnect_arg = false -> w3 built = w3 self)
  /\ (autoconnect_arg = true ->
      w3 built = providers (core self)
      /\ providers (core self) <> None
      /\ isConnected 0 = true /\ isConnected 1 = true).
Proof.
  unfold after_autoconnect. destruct autoconnect_arg.
  - destruct (connect str_providers str_provider_uri isConnected self)
      as [[answer | e] connected] eqn:Hconnect; [| discriminate].
    intros Hbuilt. inversion Hbuilt; subst connected.
    rewrite connect_outcome in Hconnect.
    destruct (providers (core self)) as [configured |] eqn:Hconfigured;
      [| discriminate].
    destruct (isConnected 0) eqn:Hfirst; simpl in Hconnect; [| discriminate].
    destruct (isConnected 1) eqn:Hsecond; [| discriminate].
    inversion Hconnect; subst built. simpl.
    repeat split; auto; discriminate.
  - intros Hbuilt. inversion Hbuilt; subst. repeat split; auto; discriminate.
Qed.

(** X17: the constructor refuses a URI together with a non-empty list of
    provider instances, whatever the other arguments; and with neither a
    URI nor provider instances, and [autoconnect] set as it is by default,
    it always raises, since no provider is configured when it connects. *)
Theorem init_refuses_arguments (provider_uri_arg : option string)
        (providers_arg : option (list Provider)) (autoconnect_arg : bool) :
  (truthy_str provider_uri_arg = true ->
   truthy_list providers_arg = true ->
   init str_providers str_provider_uri urlparse NUCYPHER_GAS_LIMIT default_registry
     network_name provider_uri_arg providers_arg autoconnect_arg timeout_arg
     registry_arg compiler isConnected
   = Raise (InterfaceError
              "Pass a provider URI string, or a list of provider instances."))
  /\ (truthy_str provider_uri_arg = false ->
      truthy_list providers_arg = false ->
      init str_providers str_provider_uri urlparse NUCYPHER_GAS_LIMIT default_registry
        network_name provider_uri_arg providers_arg true timeout_arg
        registry_arg compiler isConnected
      = Raise (InterfaceError "There are no configured blockchain providers")).
Proof.
  split.
  - apply init_from_both.
  - intros Huri Hproviders. rewrite init_from_nothing by assumption.
    unfold after_autoconnect. now rewrite connect_outcome.
Qed.

(** X18: a constructor call with a non-empty list of provider instances
    and no URI, when it returns, has exactly the given providers in its
    provider list, each once and in the given order; [provider_uri] is the
    sentinel for manually set providers; and [self.w3] is the client built
    from that list when [autoconnect] is set, and still the sentinel
    otherwise. *)
Theorem init_with_provider_list (provider_uri_arg : option string)
        (given : list Provider) (autoconnect_arg : bool) (self : Instance) :
  truthy_str provider_uri_arg = false ->
  given <> [] ->
  init str_providers str_provider_uri urlparse NUCYPHER_GAS_LIMIT default_registry
    network_name provider_uri_arg (Some given) autoconnect_arg timeout_arg
    registry_arg compiler isConnected
  = Ok self ->
  providers (core self) = Some given
  /\ provider_uri self = MANUAL_PROVIDERS_SET
  /\ w3 self = (if autoconnect_arg then Some given else None).
Proof.
  intros Huri Hgiven Hrun. rewrite init_from_providers in Hrun by assumption.
  apply after_autoconnect_returns in Hrun.
  destruct Hrun as (Hcore & Hattr & _ & _ & _ & Hoff & Hon).
  rewrite Hcore, Hattr. simpl. repeat split.
  destruct autoconnect_arg.
  - now destruct (Hon eq_refl) as [Hclient _].
  - now apply Hoff.
Qed.

(** X19: a constructor call with a URI and no provider instances, when it
    returns, has a provider list holding the one provider built for the
    URI, built without a timeout; [provider_uri] is the URI; and
    [self.w3] is the client built from that list when [autoconnect] is
    set, and still the sentinel otherwise. *)
Theorem init_with_uri (uri : string) (providers_arg : option (list Provider))
        (autoconnect_arg : bool) (self : Instance) :
  uri <> "" ->
  truthy_list providers_arg = false ->
  init str_providers str_provider_uri urlparse NUCYPHER_GAS_LIMIT default_registry
    network_name (Some uri) providers_arg autoconnect_arg timeout_arg
    registry_arg compiler isConnected
  = Ok self ->
  exists built,
    provider_of_uri urlparse NUCYPHER_GAS_LIMIT uri None = Ok built
    /\ providers (core self) = Some [built]
    /\ provider_uri self = URI uri
    /\ w3 self = (if autoconnect_arg then Some [built] else None).
Proof.
  intros Hpresent Hproviders Hrun. rewrite init_from_uri in Hrun by assumption.
  destruct (provider_of_uri urlparse NUCYPHER_GAS_LIMIT uri None) as [built | e];
    [| discriminate].
  apply after_autoconnect_returns in Hrun.
  destruct Hrun as (Hcore & Hattr & _ & _ & _ & Hoff & Hon).
  exists built. rewrite Hcore, Hattr. simpl. repeat split.
  destruct autoconnect_arg.
  - now destruct (Hon eq_refl) as [Hclient _].
  - now apply Hoff.
Qed.

(** A constructor call that returns has reached the auto-connect step
    with a provider list that is not an empty list. *)
Lemma init_returns_constructed (provider_uri_arg : option string)
      (providers_arg : option (list Provider)) (autoconnect_arg : bool)
      (self : Instance) :
  init str_providers str_provider_uri urlparse NUCYPHER_GAS_LIMIT default_registry
    network_name provider_uri_arg providers_arg autoconnect_arg timeout_arg
    registry_arg compiler isConnected
  = Ok self ->
  exists configured uri_attr,
    configured <> Some []
    /\ after_autoconnect str_providers str_provider_uri isConnected autoconnect_arg
         (constructed default_registry network_name autoconnect_arg timeout_arg
            registry_arg compiler configured uri_attr)
       = Ok self.
Proof.
  intros Hrun.
  destruct (truthy_str provider_uri_arg) eqn:Huri.
  - destruct provider_uri_arg as [uri |]; [| discriminate].
    assert (Hpresent : uri <> "").
    { simpl in Huri. apply negb_true_iff in Huri. now apply String.eqb_neq. }
    destruct (truthy_list providers_arg) eqn:Hproviders.
    + rewrite init_from_both in Hrun by assumption. discriminate.
    + rewrite init_from_uri in Hrun by assumption.
      destruct (provider_of_uri urlparse NUCYPHER_GAS_LIMIT uri None)
        as [built | e]; [| discriminate].
      exists (Some [built]), (URI uri). split; [discriminate | exact Hrun].
  - destruct (truthy_list providers_arg) eqn:Hproviders.
    + destruct providers_arg as [[| first rest] |]; try discriminate.
      rewrite init_from_providers in Hrun by (assumption || discriminate).
      exists (Some (first :: rest)), MANUAL_PROVIDERS_SET.
      split; [discriminate | exact Hrun].
    + rewrite init_from_nothing in Hrun by assumption.
      exists None, URI_NO_BLOCKCHAIN_CONNECTION.
      split; [discriminate | exact Hrun].
Qed.

(** X20: every instance the constructor returns has a provider list that
    is not an empty list; its registry is the one passed, or the default
    one; its factory cache is what the compiler produced, or the sentinel
    without a compiler; its network name and timeout are the ones passed,
    or [tester] and 10; and when [autoconnect] is set, a provider list is
    configured, [self.w3] is the client built from it, and the node
    answered the first two liveness probes. *)
Theorem init_establishes (provider_uri_arg : option string)
        (providers_arg : option (list Provider)) (autoconnect_arg : bool)
        (self : Instance) :
  init str_providers str_provider_uri urlparse NUCYPHER_GAS_LIMIT default_registry
    network_name provider_uri_arg providers_arg autoconnect_arg timeout_arg
    registry_arg compiler isConnected
  = Ok self ->
  providers_well_formed (core self)
  /\ registry (core self)
     = match registry_arg with
       | Some given => given
       | None => default_registry
       end
  /\ raw_contract_cache (core self) = compiler
  /\ network self
     = match network_name with
       | Some given => given
       | None => "tester"
       end
  /\ timeout self
     = match timeout_arg with
       | Some given => given
       | None => 10%Z
       end
  /\ autoconnect self = autoconnect_arg
  /\ (autoconnect_arg = true ->
      w3 self = providers (core self)
      /\ providers (core self) <> None
      /\ isConnected 0 = true /\ isConnected 1 = true).
Proof.
  intros Hrun.
  destruct (init_returns_constructed _ _ _ _ Hrun) as (configured & uri_attr & Hnonempty & Hafter).
  apply after_autoconnect_returns in Hafter.
  destruct Hafter as (Hcore & _ & Hnetwork & Htimeout & Hauto & _ & Hon).
  unfold providers_well_formed.
  rewrite Hcore, Hnetwork, Htimeout, Hauto. simpl.
  repeat split; auto; now apply Hon.
Qed.

(** X21: on an instance the constructor returned for the URI
    [tester://pyevm], [unlock_account] returns true whatever the node
    would answer, also when the node's call would raise. *)
Theorem unlock_account_on_pyevm (providers_arg : option (list Provider))
        (autoconnect_arg : bool) (self : Instance) (unlocked : Result bool) :
  init str_providers str_provider_uri urlparse NUCYPHER_GAS_LIMIT default_registry
    network_name (Some "tester://pyevm") providers_arg autoconnect_arg timeout_arg
    registry_arg compiler isConnected
  = Ok self ->
  unlock_account self unlocked = Ok true.
Proof.
  intros Hrun.
  destruct (truthy_list providers_arg) eqn:Hproviders.
  - rewrite init_from_both in Hrun by (assumption || reflexivity). discriminate.
  - rewrite init_from_uri in Hrun by (assumption || discriminate).
    destruct (provider_of_uri urlparse NUCYPHER_GAS_LIMIT "tester://pyevm" None)
      as [built | e]; [| discriminate].
    apply after_autoconnect_returns in Hrun.
    destruct Hrun as (_ & Hattr & _).
    unfold unlock_account. rewrite Hattr. reflexivity.
Qed.

(** X22: an instance the constructor returned with [autoconnect] set, so
    that [self.w3] is a connected client, serves exactly what the compiler
    produced: for every name, [get_contract_factory] returns the factory
    with the ABI and bytecode compiled under that name, fails with the
    error for an unknown contract when the compiler produced no such name,
    and with the error for an empty cache when no compiler was passed. *)
Theorem init_serves_compiled_contracts (provider_uri_arg : option string)
        (providers_arg : option (list Provider))
        (self : Instance) (contract_name : string) :
  init str_providers str_provider_uri urlparse NUCYPHER_GAS_LIMIT default_registry
    network_name provider_uri_arg providers_arg true timeout_arg
    registry_arg compiler isConnected
  = Ok self ->
  (exists configured, w3 self = Some configured)
  /\ get_contract_factory contract_name (core self)
     = match compiler with
       | None => Raise CacheEmptyError
       | Some compiled =>
           match compiled !! contract_name with
           | Some interface =>
               Ok (mkContractFactory (interface_abi interface)
                     (interface_bin interface))
           | None => Raise (UnknownContractError contract_name)
           end
       end.
Proof.
  intros Hrun.
  destruct (init_returns_constructed _ _ _ _ Hrun)
    as (configured & uri_attr & _ & Hafter).
  apply after_autoconnect_returns in Hafter.
  destruct Hafter as (Hcore & _ & _ & _ & _ & _ & Hon).
  destruct (Hon eq_refl) as (Hclient & Hconfigured & _).
  split.
  - rewrite Hclient.
    destruct (providers (core (constructed default_registry network_name true
                                 timeout_arg registry_arg compiler configured
                                 uri_attr)))
      as [ps |]; [eauto | congruence].
  - unfold get_contract_factory. rewrite Hcore. reflexivity.
Qed.

End ConstructionProperties.

Lemma init_with_provider_list_witness :
  match
    init example_str_providers example_str_provider_uri urlparse_plain 8000000 []
      None None (Some [IPCProvider "/tmp/geth.ipc" None; WebsocketProvider "ws://node"])
      true None None None node_up
  with
  | Ok self =>
      providers (core self)
      = Some [IPCProvider "/tmp/geth.ipc" None; WebsocketProvider "ws://node"]
      /\ provider_uri self = MANUAL_PROVIDERS_SET
      /\ w3 self
         = Some [IPCProvider "/tmp/geth.ipc" None; WebsocketProvider "ws://node"]
  | Raise _ => False
  end.
Proof.
  destruct (init _ _ _ _ _ _ _ _ _ _ _ _ _) as [self | e] eqn:Hrun.
  - exact (init_with_provider_list example_str_providers example_str_provider_uri
             urlparse_plain 8000000 [] None None None None node_up None
             [IPCProvider "/tmp/geth.ipc" None; WebsocketProvider "ws://node"]
             true self eq_refl ltac:(discriminate) Hrun).
  - vm_compute in Hrun. discriminate.
Defined.

Lemma init_with_uri_witness :
  match
    init example_str_providers example_str_provider_uri urlparse_plain 8000000 []
      None (Some "ipc:///tmp/geth.ipc") None true (Some 30%Z) None None node_up
  with
  | Ok self =>
      exists built,
        provider_of_uri urlparse_plain 8000000 "ipc:///tmp/geth.ipc" None = Ok built
        /\ providers (core self) = Some [built]
        /\ provider_uri self = URI "ipc:///tmp/geth.ipc"
        /\ w3 self = Some [built]
  | Raise _ => False
  end.
Proof.
  destruct (init _ _ _ _ _ _ _ _ _ _ _ _ _) as [self | e] eqn:Hrun.
  - exact (init_with_uri example_str_providers example_str_provider_uri
             urlparse_plain 8000000 [] None (Some 30%Z) None None node_up
             "ipc:///tmp/geth.ipc" None true self ltac:(discriminate) eq_refl Hrun).
  - vm_compute in Hrun. discriminate.
Defined.

Lemma init_establishes_witness :
  match
    init example_str_providers example_str_provider_uri urlparse_plain 8000000 []
      None (Some "http://localhost:8545") None true None
      (Some registry_one_dispatcher) None node_up
  with
  | Ok self =>
      providers_well_formed (core self)
      /\ registry (core self) = registry_one_dispatcher
      /\ raw_contract_cache (core self) = None
      /\ network self = "tester"
      /\ timeout self = 10%Z
      /\ autoconnect self = true
      /\ (true = true ->
          w3 self = providers (core self)
          /\ providers (core self) <> None
          /\ node_up 0 = true /\ node_up 1 = true)
  | Raise _ => False
  end.
Proof.
  destruct (init _ _ _ _ _ _ _ _ _ _ _ _ _) as [self | e] eqn:Hrun.
  - exact (init_establishes example_str_providers example_str_provider_uri
             urlparse_plain 8000000 [] None None (Some registry_one_dispatcher)
             None node_up (Some "http://localhost:8545") None true self Hrun).
  - vm_compute in Hrun. discriminate.
Defined.

Lemma unlock_account_on_pyevm_witness :
  match
    init example_str_providers example_str_provider_uri urlparse_plain 8000000 []
      None (Some "tester://pyevm") None true None None None node_up
  with
  | Ok self => unlock_account self (Raise (Web3Error "ConnectionError")) = Ok true
  | Raise _ => False
  end.
Proof.
  destruct (init _ _ _ _ _ _ _ _ _ _ _ _ _) as [self | e] eqn:Hrun.
  - exact (unlock_account_on_pyevm example_str_providers example_str_provider_uri
             urlparse_plain 8000000 [] None None None None node_up None true self
             (Raise (Web3Error "ConnectionError")) Hrun).
  - vm_compute in Hrun. discriminate.
Defined.

Lemma init_serves_compiled_contracts_witness :
  match
    init example_str_providers example_str_provider_uri urlparse_plain 8000000 []
      None (Some "http://localhost:8545") None true None None
      (Some {[ "MinerEscrow" := mkCompiledInterface "abi1" "0x6080" ]}) node_up
  with
  | Ok self =>
      (exists configured, w3 self = Some configured)
      /\ get_contract_factory "MinerEscrow" (core self)
         = Ok (mkContractFactory "abi1" "0x6080")
  | Raise _ => False
  end.
Proof.
  destruct (init _ _ _ _ _ _ _ _ _ _ _ _ _) as [self | e] eqn:Hrun.
  - destruct (init_serves_compiled_contracts example_str_providers
                example_str_provider_uri urlparse_plain 8000000 [] None None None
                (Some {[ "MinerEscrow" := mkCompiledInterface "abi1" "0x6080" ]})
                node_up (Some "http://localhost:8545") None self
                "MinerEscrow" Hrun) as [Hclient Hfactory].
    split; [exact Hclient |].
    rewrite Hfactory. vm_compute. reflexivity.
  - vm_compute in Hrun. discriminate.
Defined.

(** ** Deployment and the rest of the instance *)

(** X23: after the deployer address is set on an instance that had none,
    every deployment that returns has submitted its transaction from that
    address, with the gas price the node reported. *)
Theorem deployment_is_sent_from_the_set_deployer
        (w3 : Web3) (checksum_address : Address) (contract_name : string)
        (args : ConstructorArgs)
        (self self1 self2 : BlockchainDeployerInterface)
        (contract : Contract) (txhash : TxHash) :
  deployer_address self = None ->
  set_deployer_address checksum_address self = (Ok tt, self1) ->
  deploy_contract w3 contract_name args self1 = (Ok (contract, txhash), self2) ->
  exists gas_price contract_factory,
    eth_gasPrice w3 = Ok gas_price
    /\ get_contract_factory contract_name (base self) = Ok contract_factory
    /\ transact w3 contract_factory args (mkTransaction checksum_address gas_price)
       = Ok txhash
    /\ deployer_address self2 = Some checksum_address.
Proof.
  intros Hunset Hset Hrun.
  unfold set_deployer_address, py_bind, py_get, py_put in Hset.
  rewrite Hunset in Hset. inversion Hset; subst self1.
  destruct (deploy_contract_success _ _ _ _ _ _ _ Hrun)
    as (deployer & gas_price & f & receipt & Hdeployer & Hgas & Hfactory & Hsent
        & _ & _ & Hself2).
  simpl in Hdeployer, Hfactory, Hself2. inversion Hdeployer; subst deployer.
  exists gas_price, f. subst self2. auto.
Qed.

Lemma deployment_is_sent_from_the_set_deployer_witness :
  exists gas_price contract_factory,
    eth_gasPrice deploying_w3 = Ok gas_price
    /\ get_contract_factory "MinerEscrow"
         (base (mkBlockchainDeployerInterface (base fresh_deployer) None))
       = Ok contract_factory
    /\ transact deploying_w3 contract_factory [] (mkTransaction "0xDE" gas_price)
       = Ok "0xC:0x6080"
    /\ deployer_address
         (snd (deploy_contract deploying_w3 "MinerEscrow" [] fresh_deployer))
       = Some "0xDE".
Proof.
  apply (deployment_is_sent_from_the_set_deployer deploying_w3 "0xDE" "MinerEscrow"
           [] (mkBlockchainDeployerInterface (base fresh_deployer) None)
           fresh_deployer _ (mkContract "abi1" "0xC:0x6080") "0xC:0x6080").
  - reflexivity.
  - reflexivity.
  - vm_compute. reflexivity.
Defined.

(** The outcome of [get_contract_by_name] depends on the registry only
    through the records named [name] and the records named [Dispatcher]. *)
Lemma get_contract_by_name_searches (w3 : Web3) (self self' : BlockchainInterface)
      (name : string) (upgradeable : bool) :
  EthereumContractRegistry.search name (registry self')
  = EthereumContractRegistry.search name (registry self) ->
  EthereumContractRegistry.search "Dispatcher" (registry self')
  = EthereumContractRegistry.search "Dispatcher" (registry self) ->
  get_contract_by_name w3 self' name upgradeable
  = get_contract_by_name w3 self name upgradeable.
Proof.
  intros Hname Hdispatchers. unfold get_contract_by_name.
  now rewrite Hname, Hdispatchers.
Qed.

(** X24: a deployment, whatever its outcome, of a contract named neither
    [name] nor [Dispatcher] does not change what [get_contract_by_name]
    answers for [name], in either mode and on every node. *)
Theorem unrelated_deployment_keeps_resolution
        (w3 node : Web3) (contract_name : string) (args : ConstructorArgs)
        (self self' : BlockchainDeployerInterface)
        (outcome : Result (Contract * TxHash))
        (name : string) (upgradeable : bool) :
  contract_name <> name ->
  contract_name <> "Dispatcher" ->
  deploy_contract w3 contract_name args self = (outcome, self') ->
  get_contract_by_name node (base self') name upgradeable
  = get_contract_by_name node (base self) name upgradeable.
Proof.
  intros Hname Hdispatcher Hrun.
  destruct outcome as [[contract txhash] | e].
  - destruct (deploy_contract_success _ _ _ _ _ _ _ Hrun)
      as (deployer & gas_price & f & receipt & _ & _ & _ & _ & _ & _ & Hself).
    subst self'. simpl.
    apply get_contract_by_name_searches; simpl; rewrite search_enroll.
    + destruct (String.eqb_spec contract_name name); [congruence | apply app_nil_r].
    + destruct (String.eqb_spec contract_name "Dispatcher");
        [congruence | apply app_nil_r].
  - now rewrite (deploy_contract_failure _ _ _ _ _ _ Hrun).
Qed.

Lemma unrelated_deployment_keeps_resolution_witness :
  get_contract_by_name example_w3
    (base (snd (deploy_contract deploying_w3 "MinerEscrow" [] example_deployer)))
    "PolicyManager" true
  = Ok (mkContract "pabi" "0xD1").
Proof.
  rewrite (unrelated_deployment_keeps_resolution deploying_w3 example_w3
             "MinerEscrow" [] example_deployer _ _ "PolicyManager" true
             ltac:(discriminate) ltac:(discriminate) (surjective_pairing _)).
  reflexivity.
Defined.

(** X25: after a provider is added by URI, a call of [connect], whatever
    its outcome and whatever client an earlier call installed, leaves
    [self.w3] as the client built from the earlier providers followed by
    the added one. *)
Theorem connect_again_takes_the_new_list
        (str_providers : list Provider -> string)
        (str_provider_uri : ProviderURI -> string)
        (urlparse : string -> ParseResult) (NUCYPHER_GAS_LIMIT : Z)
        (isConnected : nat -> bool) (uri : string) (timeout_arg : option Z)
        (self self1 self2 : Instance) (outcome : Result bool) :
  on_core (add_provider urlparse NUCYPHER_GAS_LIMIT None (Some uri) timeout_arg) self
  = (Ok tt, self1) ->
  connect str_providers str_provider_uri isConnected self1 = (outcome, self2) ->
  exists built,
    provider_of_uri urlparse NUCYPHER_GAS_LIMIT uri timeout_arg = Ok built
    /\ w3 self2 = Some (provider_list (core self) ++ [built])
    /\ providers (core self2) = Some (provider_list (core self) ++ [built]).
Proof.
  intros Hadd Hconnect. unfold on_core in Hadd.
  destruct (String.eqb_spec uri "") as [Hempty | Hpresent].
  - subst uri. simpl in Hadd. discriminate.
  - rewrite (add_provider_uri_outcome urlparse NUCYPHER_GAS_LIMIT _ uri timeout_arg
               Hpresent) in Hadd.
    destruct (provider_of_uri urlparse NUCYPHER_GAS_LIMIT uri timeout_arg)
      as [built | e]; [| discriminate].
    inversion Hadd; subst self1. exists built. split; [reflexivity |].
    rewrite connect_outcome in Hconnect. simpl in Hconnect.
    inversion Hconnect; subst self2. simpl. auto.
Qed.

Lemma connect_again_takes_the_new_list_witness :
  exists built,
    provider_of_uri urlparse_plain 8000000 "ws://node:8546" None = Ok built
    /\ w3 (snd (connect example_str_providers example_str_provider_uri node_up
                  (snd (on_core
                          (add_provider urlparse_plain 8000000 None
                             (Some "ws://node:8546") None)
                          (snd (connect example_str_providers
                                  example_str_provider_uri node_up
                                  example_instance))))))
       = Some (provider_list (core example_instance) ++ [built])
    /\ providers
         (core
            (snd (connect example_str_providers example_str_provider_uri node_up
                    (snd (on_core
                            (add_provider urlparse_plain 8000000 None
                               (Some "ws://node:8546") None)
                            (snd (connect example_str_providers
                                    example_str_provider_uri node_up
                                    example_instance)))))))
       = Some (provider_list (core example_instance) ++ [built]).
Proof.
  exact (connect_again_takes_the_new_list example_str_providers
           example_str_provider_uri urlparse_plain 8000000 node_up
           "ws://node:8546" None
           (snd (connect example_str_providers example_str_provider_uri node_up
                   example_instance))
           _ _ _ (surjective_pairing _) (surjective_pairing _)).
Defined.
